(** * Block assembly pipeline: a shallow embedding and its properties

    The development embeds the Go program of the repository (the canonical
    revision with header digesting, and the coinbase constructor of the
    earlier revision [main2.go]) and proves the properties its specification
    states about it.

    Conventions.
    - Go's [int] is the 64-bit signed integer of the usual targets, [uint32]
      and [uint64] are unsigned; all are carried as [Z] and every arithmetic
      operation of the source wraps explicitly.
    - A [[]byte] is a [list byte], a Go [string] is a [string] (a sequence of
      bytes in both worlds), a [[32]byte] is a list together with the proof
      that it has 32 elements.
    - The operating system, the clock and [encoding/json] are collaborators
      of the program: they are variables of the section that holds the
      pipeline. [crypto/sha256] and [encoding/hex] are modelled in full. *)

From Stdlib Require Import ZArith List String Ascii Lia Bool DecimalString.
From Stdlib Require Import Strings.Byte Permutation Eqdep_dec.
Import ListNotations.

Local Open Scope Z_scope.

(** ** Machine integers *)

Module GoInt.

(** Two's complement reduction of an integer to [w] bits, signed. *)
Definition wrap_signed (w : Z) (z : Z) : Z :=
  (z + 2 ^ (w - 1)) mod 2 ^ w - 2 ^ (w - 1).

(** Reduction of an integer to [w] bits, unsigned. *)
Definition wrap_unsigned (w : Z) (z : Z) : Z := z mod 2 ^ w.

Definition int_bits : Z := 64.
Definition MinInt : Z := - 2 ^ 63.
Definition MaxInt : Z := 2 ^ 63 - 1.
Definition MaxUint64 : Z := 2 ^ 64 - 1.

Definition int (z : Z) : Z := wrap_signed int_bits z.
Definition uint32 (z : Z) : Z := wrap_unsigned 32 z.
Definition uint64 (z : Z) : Z := wrap_unsigned 64 z.

(** [a + b] on [int]. *)
Definition int_add (a b : Z) : Z := int (a + b).
(** [a + b] on [uint64]. *)
Definition uint64_add (a b : Z) : Z := uint64 (a + b).

(** The values an [int] can hold. *)
Definition is_int (z : Z) : Prop := MinInt <= z <= MaxInt.

(** [byte(v)]: the low eight bits. *)
Definition byte_of_Z (z : Z) : byte :=
  match Byte.of_N (Z.to_N (z mod 256)) with
  | Some b => b
  | None => x00
  end.

Definition Z_of_byte (b : byte) : Z := Z.of_N (Byte.to_N b).

(** [len] of a slice or of a string, an [int]. *)
Definition len {A : Type} (l : list A) : Z := Z.of_nat (List.length l).
Definition len_string (s : string) : Z := Z.of_nat (String.length s).

End GoInt.
Import GoInt.

(** ** Data model *)

(** A [[32]byte]. *)
Module Array32.
Record t : Type := mk {
  bytes : list byte;
  bytes_length : List.length bytes = 32%nat
}.

(** The zero value of the type. *)
Definition zero : t := mk (repeat x00 32) eq_refl.
End Array32.

Module Prevout.
Record t : Type := mk {
  ScriptPubKey : string;
  ScriptPubKeyASM : string;
  ScriptPubKeyType : string;
  ScriptPubKeyAddr : string;
  Value : Z
}.
End Prevout.

Module TxOutput.
Record t : Type := mk {
  ScriptPubKey : string;
  ScriptPubKeyASM : string;
  ScriptPubKeyType : string;
  ScriptPubKeyAddr : string;
  Value : Z
}.
End TxOutput.

Module TxInput.
Record t : Type := mk {
  Txid : string;
  Vout : Z;
  ScriptSig : string;
  Witness : list string;
  IsCoinbase : bool;
  Sequence : Z;
  PrevOut : Prevout.t
}.
End TxInput.

Module Transaction.
Record t : Type := mk {
  Version : Z;
  Locktime : Z;
  Vin : list TxInput.t;
  Vout : list TxOutput.t
}.
End Transaction.

Module BlockHeader.
Record t : Type := mk {
  Version : Z;
  PreviousBlockHash : Array32.t;
  MerkleRoot : Array32.t;
  Timestamp : Z;
  DifficultyTarget : string;
  Nonce : Z
}.

(** [BlockHeader{}] *)
Definition zero : t := mk 0 Array32.zero Array32.zero 0 "" 0.

(** Assignments to one field. *)
Definition set_Version (v : Z) (h : t) : t :=
  mk v (PreviousBlockHash h) (MerkleRoot h) (Timestamp h) (DifficultyTarget h) (Nonce h).
Definition set_Timestamp (v : Z) (h : t) : t :=
  mk (Version h) (PreviousBlockHash h) (MerkleRoot h) v (DifficultyTarget h) (Nonce h).
Definition set_DifficultyTarget (v : string) (h : t) : t :=
  mk (Version h) (PreviousBlockHash h) (MerkleRoot h) (Timestamp h) v (Nonce h).
Definition set_Nonce (v : Z) (h : t) : t :=
  mk (Version h) (PreviousBlockHash h) (MerkleRoot h) (Timestamp h) (DifficultyTarget h) v.
End BlockHeader.

Module Block.
Record t : Type := mk {
  Size : Z;
  Header : BlockHeader.t;
  TransactionCount : Z;
  Transactions : list Transaction.t
}.

(** Assignments to one field. *)
Definition set_Header (h : BlockHeader.t) (b : t) : t :=
  mk (Size b) h (TransactionCount b) (Transactions b).
Definition set_Size (v : Z) (b : t) : t :=
  mk v (Header b) (TransactionCount b) (Transactions b).
End Block.

(** ** The validator *)

(** [ValidateTransaction], the same text in both revisions: two running
    totals on [int], compared strictly. *)
Definition ValidateTransaction (tx : Transaction.t) : bool :=
  let input :=
    fold_left (fun input vin => int_add input (Prevout.Value (TxInput.PrevOut vin)))
              (Transaction.Vin tx) 0 in
  let output :=
    fold_left (fun output vout => int_add output (TxOutput.Value vout))
              (Transaction.Vout tx) 0 in
  if input >? output then true else false.

(** The totals of the specification, sums of integers without a bound. *)
Definition sumZ (l : list Z) : Z := fold_right Z.add 0 l.

Definition input_total (tx : Transaction.t) : Z :=
  sumZ (map (fun vin => Prevout.Value (TxInput.PrevOut vin)) (Transaction.Vin tx)).

Definition output_total (tx : Transaction.t) : Z :=
  sumZ (map TxOutput.Value (Transaction.Vout tx)).

(** ** The coinbase constructor *)

(** [CreateCoinbaseTransaction] of the canonical revision. *)
Definition CreateCoinbaseTransaction : Transaction.t :=
  {| Transaction.Version := 1;
     Transaction.Locktime := 0;
     Transaction.Vin :=
       [ {| TxInput.Txid := "";
            TxInput.Vout := -1;
            TxInput.ScriptSig := "";
            TxInput.Witness := [];
            TxInput.IsCoinbase := true;
            TxInput.Sequence := 0xFFFFFFFF;
            TxInput.PrevOut :=
              {| Prevout.ScriptPubKey := "";
                 Prevout.ScriptPubKeyASM := "";
                 Prevout.ScriptPubKeyType := "";
                 Prevout.ScriptPubKeyAddr := "";
                 Prevout.Value := 0 |} |} ];
     Transaction.Vout :=
       [ {| TxOutput.ScriptPubKey := "";
            TxOutput.ScriptPubKeyASM := "";
            TxOutput.ScriptPubKeyType := "";
            TxOutput.ScriptPubKeyAddr := "";
            TxOutput.Value := 0 |} ] |}.

(** The earlier revision, [main2.go]. *)
Module Main2.

(** Fields the literal leaves out take the zero value of their type. *)
Definition CreateCoinbaseTransaction : Transaction.t :=
  {| Transaction.Version := 1;
     Transaction.Locktime := 0;
     Transaction.Vin :=
       [ {| TxInput.Txid :=
              "0000000000000000000000000000000000000000000000000000000000000000";
            TxInput.Vout := -1;
            TxInput.ScriptSig := "coinbase script";
            TxInput.Witness := [];
            TxInput.IsCoinbase := true;
            TxInput.Sequence := 0xFFFFFFFF;
            TxInput.PrevOut := Prevout.mk "" "" "" "" 0 |} ];
     Transaction.Vout :=
       [ {| TxOutput.ScriptPubKey := "script pubkey";
            TxOutput.ScriptPubKeyASM := "script pubkey asm";
            TxOutput.ScriptPubKeyType := "script pubkey type";
            TxOutput.ScriptPubKeyAddr := "script pubkey address";
            TxOutput.Value := 1000000 |} ] |}.

End Main2.

(** ** The digest: [crypto/sha256] and [encoding/hex]

    The hash of FIPS 180-4 on 32-bit words, as [sha256.Sum256] computes it. *)
Module sha256.

Definition w32 (z : Z) : Z := z mod 2 ^ 32.
Definition add32 (a b : Z) : Z := w32 (a + b).

Definition rotr (n x : Z) : Z :=
  Z.lor (Z.shiftr x n) (w32 (Z.shiftl x (32 - n))).

Definition Ch (x y z : Z) : Z := Z.lxor (Z.land x y) (Z.ldiff z x).
Definition Maj (x y z : Z) : Z :=
  Z.lxor (Z.lxor (Z.land x y) (Z.land x z)) (Z.land y z).
Definition Sigma0 (x : Z) : Z := Z.lxor (Z.lxor (rotr 2 x) (rotr 13 x)) (rotr 22 x).
Definition Sigma1 (x : Z) : Z := Z.lxor (Z.lxor (rotr 6 x) (rotr 11 x)) (rotr 25 x).
Definition sigma0 (x : Z) : Z := Z.lxor (Z.lxor (rotr 7 x) (rotr 18 x)) (Z.shiftr x 3).
Definition sigma1 (x : Z) : Z := Z.lxor (Z.lxor (rotr 17 x) (rotr 19 x)) (Z.shiftr x 10).

(** The constants of the standard are fractional parts of roots of the
    first primes, on 32 bits. *)
Definition primes : list Z :=
  [ 2; 3; 5; 7; 11; 13; 17; 19; 23; 29; 31; 37; 41; 43; 47; 53;
    59; 61; 67; 71; 73; 79; 83; 89; 97; 101; 103; 107; 109; 113; 127; 131;
    137; 139; 149; 151; 157; 163; 167; 173; 179; 181; 191; 193; 197; 199; 211; 223;
    227; 229; 233; 239; 241; 251; 257; 263; 269; 271; 277; 281; 283; 293; 307; 311 ].

(** The integer cube root of [v], found bit by bit below bit [n]. *)
Fixpoint cube_root (n : nat) (v r : Z) : Z :=
  match n with
  | O => r
  | S n' =>
      let c := r + 2 ^ Z.of_nat n' in
      cube_root n' v (if c * c * c <=? v then c else r)
  end.

(** The 32 bits after the point of the cube root and of the square root. *)
Definition frac_cube_root (p : Z) : Z := w32 (cube_root 40 (p * 2 ^ 96) 0).
Definition frac_square_root (p : Z) : Z := w32 (Z.sqrt (p * 2 ^ 64)).

(** The round constants: from the cube roots of the first 64 primes. *)
Definition K : list Z := Eval vm_compute in map frac_cube_root primes.

Record state : Type := mkState { h0 : Z; h1 : Z; h2 : Z; h3 : Z; h4 : Z; h5 : Z; h6 : Z; h7 : Z }.

(** The initial chaining value: from the square roots of the first 8
    primes. *)
Definition init : state :=
  Eval vm_compute in
    mkState (frac_square_root 2) (frac_square_root 3) (frac_square_root 5)
            (frac_square_root 7) (frac_square_root 11) (frac_square_root 13)
            (frac_square_root 17) (frac_square_root 19).

(** Big-endian reading of the 32-bit words of a block. *)
Fixpoint words (n : nat) (p : list byte) : list Z :=
  match n, p with
  | S n', a :: b :: c :: d :: p' =>
      (Z_of_byte a * 2 ^ 24 + Z_of_byte b * 2 ^ 16 + Z_of_byte c * 2 ^ 8 + Z_of_byte d)
        :: words n' p'
  | _, _ => []
  end.

(** The message schedule, most recent word first. *)
Fixpoint extend (n : nat) (w : list Z) : list Z :=
  match n with
  | O => w
  | S n' =>
      let v := add32 (add32 (add32 (sigma1 (nth 1 w 0)) (nth 6 w 0)) (sigma0 (nth 14 w 0)))
                     (nth 15 w 0) in
      extend n' (v :: w)
  end.

Definition schedule (p : list byte) : list Z := rev (extend 48 (rev (words 16 p))).

Definition round (s : state) (kw : Z * Z) : state :=
  let (k, w) := kw in
  let t1 := add32 (add32 (add32 (add32 (h7 s) (Sigma1 (h4 s))) (Ch (h4 s) (h5 s) (h6 s))) k) w in
  let t2 := add32 (Sigma0 (h0 s)) (Maj (h0 s) (h1 s) (h2 s)) in
  mkState (add32 t1 t2) (h0 s) (h1 s) (h2 s) (add32 (h3 s) t1) (h4 s) (h5 s) (h6 s).

(** One 64-byte block folded into the chaining value. *)
Definition block (s : state) (p : list byte) : state :=
  let r := fold_left round (combine K (schedule p)) s in
  mkState (add32 (h0 s) (h0 r)) (add32 (h1 s) (h1 r)) (add32 (h2 s) (h2 r))
          (add32 (h3 s) (h3 r)) (add32 (h4 s) (h4 r)) (add32 (h5 s) (h5 r))
          (add32 (h6 s) (h6 r)) (add32 (h7 s) (h7 r)).

Fixpoint blocks (n : nat) (s : state) (p : list byte) : state :=
  match n with
  | O => s
  | S n' => blocks n' (block s (firstn 64 p)) (skipn 64 p)
  end.

Definition be32 (v : Z) : list byte :=
  [ byte_of_Z (Z.shiftr v 24); byte_of_Z (Z.shiftr v 16); byte_of_Z (Z.shiftr v 8); byte_of_Z v ].

Definition be64 (v : Z) : list byte := be32 (Z.shiftr v 32) ++ be32 v.

(** The message followed by the bit 1, zero bytes up to 56 modulo 64, and the
    length in bits on 64 bits. *)
Definition pad (data : list byte) : list byte :=
  let n := Z.of_nat (List.length data) in
  data ++ x80 :: repeat x00 (Z.to_nat ((55 - n) mod 64)) ++ be64 ((8 * n) mod 2 ^ 64).

(** [sha256.Sum256] *)
Definition Sum256 (data : list byte) : Array32.t :=
  let p := pad data in
  let s := blocks (List.length p / 64) init p in
  Array32.mk
    (be32 (h0 s) ++ be32 (h1 s) ++ be32 (h2 s) ++ be32 (h3 s) ++
     be32 (h4 s) ++ be32 (h5 s) ++ be32 (h6 s) ++ be32 (h7 s))
    eq_refl.

End sha256.

(** [encoding/hex] *)
Module hex.
Definition hextable : string := "0123456789abcdef".

Definition digit (i : Z) : ascii :=
  match String.get (Z.to_nat i) hextable with
  | Some c => c
  | None => "0"%char
  end.

(** [hex.EncodeToString]: two digits per byte, high nibble first. *)
Fixpoint EncodeToString (src : list byte) : string :=
  match src with
  | [] => EmptyString
  | v :: rest =>
      String (digit (Z.shiftr (Z_of_byte v) 4))
        (String (digit (Z.land (Z_of_byte v) 0x0f)) (EncodeToString rest))
  end.

(** The reader of lowercase hexadecimal text, which refuses every character
    outside [0-9a-f] and every text of odd length. *)
Definition lower_value (c : ascii) : option Z :=
  match String.index 0 (String c EmptyString) hextable with
  | Some i => Some (Z.of_nat i)
  | None => None
  end.

Fixpoint decode_lower (s : string) : option (list byte) :=
  match s with
  | EmptyString => Some []
  | String hi (String lo rest) =>
      match lower_value hi, lower_value lo, decode_lower rest with
      | Some h, Some l, Some b => Some (byte_of_Z (16 * h + l) :: b)
      | _, _, _ => None
      end
  | String _ EmptyString => None
  end.
End hex.

(** ** The header: serialization and digest *)

(** [buf[i] = v] on a slice that has an index [i]. *)
Fixpoint store {A : Type} (i : nat) (v : A) (buf : list A) : list A :=
  match i, buf with
  | _, [] => []
  | O, _ :: rest => v :: rest
  | S i', x :: rest => x :: store i' v rest
  end.

(** [binary.LittleEndian.PutUint32] *)
Definition PutUint32 (b : list byte) (v : Z) : list byte :=
  let b := store 0 (byte_of_Z v) b in
  let b := store 1 (byte_of_Z (Z.shiftr v 8)) b in
  let b := store 2 (byte_of_Z (Z.shiftr v 16)) b in
  let b := store 3 (byte_of_Z (Z.shiftr v 24)) b in
  b.

Definition serializeUint32 (value : Z) : list byte :=
  let buf := repeat x00 4 in
  PutUint32 buf value.

Definition SerializeBlockHeader (header : BlockHeader.t) : list byte :=
  let serializedHeader := [] in
  let serializedHeader := serializedHeader ++ serializeUint32 (BlockHeader.Version header) in
  let serializedHeader :=
    serializedHeader ++ Array32.bytes (BlockHeader.PreviousBlockHash header) in
  let serializedHeader := serializedHeader ++ Array32.bytes (BlockHeader.MerkleRoot header) in
  let serializedHeader := serializedHeader ++ serializeUint32 (BlockHeader.Timestamp header) in
  let serializedHeader :=
    serializedHeader ++ list_byte_of_string (BlockHeader.DifficultyTarget header) in
  let serializedHeader := serializedHeader ++ serializeUint32 (BlockHeader.Nonce header) in
  serializedHeader.

Definition HashBlockHeader (serializedHeader : list byte) : Array32.t :=
  let hash := sha256.Sum256 serializedHeader in
  let hash := sha256.Sum256 (Array32.bytes hash) in
  hash.

(** The reading of a byte sequence as a little-endian number, and the [n]
    low bytes of a number in little-endian order: the vocabulary of the
    specification's layout table. *)
Fixpoint le_value (b : list byte) : Z :=
  match b with
  | [] => 0
  | x :: rest => Z_of_byte x + 256 * le_value rest
  end.

Fixpoint little_endian (n : nat) (v : Z) : list byte :=
  match n with
  | O => []
  | S n' => byte_of_Z v :: little_endian n' (v / 256)
  end.

(** ** The world of the program *)

(** A Go [error], by its message. *)
Definition error : Type := string.

(** The line break. *)
Definition nl : string := String "010"%char EmptyString.

(** [strings.HasSuffix] *)
Definition HasSuffix (s suffix : string) : bool :=
  (String.length suffix <=? String.length s)%nat &&
  String.eqb (substring (String.length s - String.length suffix) (String.length suffix) s)
             suffix.

Module FileInfo.
Record t : Type := mk {
  Name : string;
  IsDir : bool
}.
End FileInfo.

(** What a run can touch: the console, the clock, the file [output.txt] of
    the working directory ([None] while it does not exist) and the device
    that holds it, which may refuse to create the file and accepts [Room]
    more bytes. *)
Module World.
Record t : Type := mk {
  Console : string;
  Clock : Z;
  OutputTxt : option (list byte);
  CreateFault : option error;
  Room : nat
}.

Definition print (s : string) (w : t) : t :=
  mk (Console w ++ s) (Clock w) (OutputTxt w) (CreateFault w) (Room w).

Definition truncate (w : t) : t :=
  mk (Console w) (Clock w) (Some []) (CreateFault w) (Room w).

Definition put (b : list byte) (w : t) : t :=
  mk (Console w) (Clock w)
     (match OutputTxt w with Some c => Some (c ++ b) | None => None end)
     (CreateFault w) (Room w - List.length b).
End World.

(** A call returns or panics; the world is threaded through both. *)
Inductive outcome (A : Type) : Type :=
| Returned (a : A)
| Panicked (msg : string).
Arguments Returned {A} a.
Arguments Panicked {A} msg.

Definition M (A : Type) : Type := World.t -> outcome A * World.t.

Definition ret {A : Type} (a : A) : M A := fun w => (Returned a, w).

Definition bind {A B : Type} (m : M A) (k : A -> M B) : M B :=
  fun w =>
    match m w with
    | (Returned a, w') => k a w'
    | (Panicked msg, w') => (Panicked msg, w')
    end.

Notation "x <- m ;; k" := (bind m (fun x => k))
  (at level 61, m at next level, right associativity).
Notation "m ;;; k" := (bind m (fun _ => k))
  (at level 61, right associativity).

Definition panic {A : Type} (msg : string) : M A := fun w => (Panicked msg, w).

(** The message of the run-time panic of an index out of range. *)
Definition out_of_range : string := "runtime error: index out of range".

(** [s[i]]: the element, or the run-time panic of an index out of range. *)
Definition index {A : Type} (s : list A) (i : nat) : M A :=
  match nth_error s i with
  | Some x => ret x
  | None => panic out_of_range
  end.

(** [fmt.Println]: the operands separated by spaces, then a line break. *)
Definition fmt_Println (operands : list string) : M unit :=
  fun w => (Returned tt, World.print (String.concat " " operands ++ nl) w).

(** [fmt.Printf], the format already filled in. *)
Definition fmt_Printf (text : string) : M unit :=
  fun w => (Returned tt, World.print text w).

(** An [int] operand as [fmt] prints it. *)
Definition itoa (z : Z) : string := DecimalString.NilZero.string_of_int (Z.to_int z).

Definition time_Now_Unix : M Z := fun w => (Returned (World.Clock w), w).

(** An open [*os.File]. *)
Module File.
Record t : Type := mk { Name : string }.
End File.

(** [os.Create]: the file is created or truncated, unless the device
    refuses. *)
Definition os_Create (name : string) : M (File.t + error) :=
  fun w =>
    match World.CreateFault w with
    | Some err => (Returned (inr err), w)
    | None => (Returned (inl (File.mk name)), World.truncate w)
    end.

(** [file.Write]: the bytes are appended; when the device has no room for
    all of them, those that fit are appended and the write fails. *)
Definition file_Write (file : File.t) (b : list byte) : M (option error) :=
  fun w =>
    if (List.length b <=? World.Room w)%nat
    then (Returned None, World.put b w)
    else (Returned (Some ("write " ++ File.Name file ++ ": no space left on device")%string),
          World.put (firstn (World.Room w) b) w).

Definition file_WriteString (file : File.t) (s : string) : M (option error) :=
  file_Write file (list_byte_of_string s).

(** [unsafe.Sizeof] of a [Transaction] on the 64-bit targets: two [uint32]
    and two slice headers of three words each. It does not look at the
    value. *)
Definition Sizeof (tx : Transaction.t) : Z := 4 + 4 + 24 + 24.

Definition MempoolPath : string := "mempool".

(** ** Sample data

    Transactions, a directory and stand-ins for the collaborators, for the
    examples at the end of the development. *)
Module Sample.

Definition input (txid : string) (value : Z) : TxInput.t :=
  TxInput.mk txid 0 "" [] false 0xFFFFFFFD (Prevout.mk "0014ab" "OP_0 ab" "v0_p2wpkh" "bc1q" value).

Definition output (value : Z) : TxOutput.t :=
  TxOutput.mk "0014cd" "OP_0 cd" "v0_p2wpkh" "bc1q" value.

(** Inputs of 5000 against outputs of 4000. *)
Definition tx_paying : Transaction.t :=
  Transaction.mk 2 0 [input "aa11" 3000; input "bb22" 2000] [output 4000].

(** Inputs of 4000 against outputs of 4000. *)
Definition tx_even : Transaction.t :=
  Transaction.mk 2 0 [input "cc33" 4000] [output 1500; output 2500].

(** Two inputs whose values add up to [2 ^ 63]. *)
Definition tx_wrapping : Transaction.t :=
  Transaction.mk 2 0 [input "dd44" 9223372036854775807; input "ee55" 1] [output 0].

(** No input, and an output of 1. *)
Definition tx_no_input : Transaction.t := Transaction.mk 2 0 [] [output 1].

(** No input, and an output of -1. *)
Definition tx_no_input_negative : Transaction.t := Transaction.mk 2 0 [] [output (-1)].

(** A directory with two records, a file of another kind, a directory whose
    name ends like a record, and a record that does not decode. *)
Definition files : list FileInfo.t :=
  [ FileInfo.mk "a.json" false; FileInfo.mk "notes.txt" false;
    FileInfo.mk "old.json" true; FileInfo.mk "b.json" false ].

Definition files_broken : list FileInfo.t := files ++ [ FileInfo.mk "c.json" false ].

Definition ReadDir (folderPath : string) : list FileInfo.t + error :=
  if String.eqb folderPath "mempool" then inl files
  else if String.eqb folderPath "broken" then inl files_broken
  else inr ("open " ++ folderPath ++ ": no such file or directory")%string.

(** Every file holds its own name. *)
Definition ReadFile (name : string) : list byte + error :=
  inl (list_byte_of_string name).

Definition Unmarshal (data : list byte) (tx : Transaction.t)
  : Transaction.t * option error :=
  let name := string_of_list_byte data in
  if HasSuffix name "/a.json" then (tx_paying, None)
  else if HasSuffix name "/b.json" then (tx_even, None)
  else (tx, Some "unexpected end of JSON input"%string).

(** The field-tagged rendering [encoding/json] gives to the types of the
    data model, for texts that need no escaping and with an empty sequence
    rendered as [null]. *)
Definition quoted (s : string) : string :=
  (String "034"%char EmptyString ++ s ++ String "034"%char EmptyString)%string.

Definition field (tag value : string) : string := (quoted tag ++ ":" ++ value)%string.

Definition object (fields : list string) : string :=
  ("{" ++ String.concat "," fields ++ "}")%string.

Definition array (items : list string) : string :=
  match items with
  | [] => "null"%string
  | _ => ("[" ++ String.concat "," items ++ "]")%string
  end.

Definition boolean (b : bool) : string := if b then "true"%string else "false"%string.

Definition render_Prevout (p : Prevout.t) : string :=
  object [ field "scriptpubkey" (quoted (Prevout.ScriptPubKey p));
           field "scriptpubkey_asm" (quoted (Prevout.ScriptPubKeyASM p));
           field "scriptpubkey_type" (quoted (Prevout.ScriptPubKeyType p));
           field "scriptpubkey_address" (quoted (Prevout.ScriptPubKeyAddr p));
           field "value" (itoa (Prevout.Value p)) ].

Definition render_TxOutput (o : TxOutput.t) : string :=
  object [ field "scriptpubkey" (quoted (TxOutput.ScriptPubKey o));
           field "scriptpubkey_asm" (quoted (TxOutput.ScriptPubKeyASM o));
           field "scriptpubkey_type" (quoted (TxOutput.ScriptPubKeyType o));
           field "scriptpubkey_address" (quoted (TxOutput.ScriptPubKeyAddr o));
           field "value" (itoa (TxOutput.Value o)) ].

Definition render_TxInput (i : TxInput.t) : string :=
  object [ field "txid" (quoted (TxInput.Txid i));
           field "vout" (itoa (TxInput.Vout i));
           field "scriptsig" (quoted (TxInput.ScriptSig i));
           field "witness" (array (map quoted (TxInput.Witness i)));
           field "is_coinbase" (boolean (TxInput.IsCoinbase i));
           field "sequence" (itoa (TxInput.Sequence i));
           field "prevout" (render_Prevout (TxInput.PrevOut i)) ].

Definition render_Transaction (tx : Transaction.t) : string :=
  object [ field "version" (itoa (Transaction.Version tx));
           field "locktime" (itoa (Transaction.Locktime tx));
           field "vin" (array (map render_TxInput (Transaction.Vin tx)));
           field "vout" (array (map render_TxOutput (Transaction.Vout tx))) ].

Definition Marshal (tx : Transaction.t) : list byte + error :=
  inl (list_byte_of_string (render_Transaction tx)).

(** A world at second [1700000000] whose device creates the file and has
    room for [room] bytes. *)
Definition world (room : nat) : World.t :=
  World.mk EmptyString 1700000000 None None room.

End Sample.

(** More samples: faulty collaborators and worlds. *)
Module Sample2.

(** The inputs of [Sample.tx_paying] in the other order. *)
Definition tx_shuffled : Transaction.t :=
  Transaction.mk 2 0 [Sample.input "bb22" 2000; Sample.input "aa11" 3000]
                 [Sample.output 4000].

(** The sample folder without the entries that are not records. *)
Definition files_plain : list FileInfo.t :=
  [ FileInfo.mk "a.json" false; FileInfo.mk "b.json" false ].

(** A reader that is refused the second record. *)
Definition ReadFile_denied (name : string) : list byte + error :=
  if String.eqb name "mempool/b.json"
  then inr ("open " ++ name ++ ": permission denied")%string
  else Sample.ReadFile name.

(** A decoder for which every record is a transaction without input. *)
Definition Unmarshal_no_input (data : list byte) (tx : Transaction.t)
  : Transaction.t * option error :=
  (Sample.tx_no_input, None).

(** A world whose device refuses to create the file. *)
Definition world_read_only : World.t :=
  World.mk EmptyString 1700000000 None (Some "open output.txt: read-only file system"%string) 0.

End Sample2.

(** ** The pipeline *)

Section Pipeline.

(** The collaborators: the directory and file reader of [io/ioutil] and the
    codec of [encoding/json]. [json.Unmarshal] fills the value it is handed
    and reports an error or none. *)
Variable ioutil_ReadDir : string -> list FileInfo.t + error.
Variable ioutil_ReadFile : string -> list byte + error.
Variable json_Unmarshal : list byte -> Transaction.t -> Transaction.t * option error.
Variable json_Marshal : Transaction.t -> list byte + error.

(** The [for _, file := range files] loop of [LoadTransactionsFromFolder];
    a [return nil, err] hands back the nil slice, the empty list. *)
Fixpoint load_files (folderPath : string) (files : list FileInfo.t)
                    (transactions : list Transaction.t)
  : list Transaction.t * option error :=
  match files with
  | [] => (transactions, None)
  | file :: rest =>
      if negb (FileInfo.IsDir file) && HasSuffix (FileInfo.Name file) ".json" then
        match ioutil_ReadFile (folderPath ++ "/" ++ FileInfo.Name file) with
        | inr err => ([], Some err)
        | inl data =>
            let tx := Transaction.mk 0 0 [] [] in
            match json_Unmarshal data tx with
            | (_, Some err) => ([], Some err)
            | (tx, None) => load_files folderPath rest (transactions ++ [tx])
            end
        end
      else load_files folderPath rest transactions
  end.

Definition LoadTransactionsFromFolder (folderPath : string)
  : list Transaction.t * option error :=
  let transactions := [] in
  match ioutil_ReadDir folderPath with
  | inr err => ([], Some err)
  | inl files => load_files folderPath files transactions
  end.

(** The loop of [WriteBlockToOutputFile] over [block.Transactions], from
    index [i] on. *)
Fixpoint write_txids (file : File.t) (i : Z) (txs : list Transaction.t) : M (option error) :=
  match txs with
  | [] => ret None
  | tx :: rest =>
      if i =? 0 then write_txids file (i + 1) rest
      else
        vin0 <- index (Transaction.Vin tx) 0 ;;
        e <- file_WriteString file (TxInput.Txid vin0 ++ nl) ;;
        match e with
        | Some err => ret (Some err)
        | None => write_txids file (i + 1) rest
        end
  end.

Definition WriteBlockToOutputFile (block : Block.t) (hash : Array32.t) : M (option error) :=
  r <- os_Create "output.txt" ;;
  match r with
  | inr err => ret (Some err)
  | inl file =>
      let blockHeaderBytes := SerializeBlockHeader (Block.Header block) in
      let blockHeaderHash := sha256.Sum256 blockHeaderBytes in
      let blockHeaderHash := sha256.Sum256 (Array32.bytes blockHeaderHash) in
      e <- file_WriteString file
             (hex.EncodeToString (Array32.bytes blockHeaderHash) ++ nl) ;;
      match e with
      | Some err => ret (Some err)
      | None =>
          tx0 <- index (Block.Transactions block) 0 ;;
          match json_Marshal tx0 with
          | inr err => ret (Some err)
          | inl serializedCoinbaseTx =>
              e <- file_Write file serializedCoinbaseTx ;;
              match e with
              | Some err => ret (Some err)
              | None =>
                  e <- file_WriteString file nl ;;
                  match e with
                  | Some err => ret (Some err)
                  | None => write_txids file 0 (Block.Transactions block)
                  end
              end
          end
      end
  end.

(** The validation loop of [main]. The operand [tx.Vin[0].Txid] is evaluated
    before [fmt.Printf] is called. *)
Fixpoint main_validate (transactions validTransactions : list Transaction.t)
  : M (list Transaction.t) :=
  match transactions with
  | [] => ret validTransactions
  | tx :: rest =>
      if ValidateTransaction tx then main_validate rest (validTransactions ++ [tx])
      else
        vin0 <- index (Transaction.Vin tx) 0 ;;
        fmt_Printf ("Invalid transaction " ++ TxInput.Txid vin0 ++ nl) ;;;
        main_validate rest validTransactions
  end.

(** The block [main] assembles from the accepted transactions at time
    [now]: the coinbase first, the count, the header fields and the size. *)
Definition main_block (now : Z) (validTransactions : list Transaction.t) : Block.t :=
  let coinbaseTx := CreateCoinbaseTransaction in
  let blockTransactions := [coinbaseTx] ++ validTransactions in
  let block :=
    Block.mk 0 BlockHeader.zero (uint64 (len blockTransactions)) blockTransactions in
  let block := Block.set_Header (BlockHeader.set_Version 1 (Block.Header block)) block in
  let block :=
    Block.set_Header (BlockHeader.set_Timestamp (uint32 now) (Block.Header block)) block in
  let block :=
    Block.set_Header
      (BlockHeader.set_DifficultyTarget
         "0000ffff00000000000000000000000000000000000000000000000000000000"
         (Block.Header block)) block in
  let block := Block.set_Header (BlockHeader.set_Nonce 0 (Block.Header block)) block in
  let blockSize := uint64 (int_add (len (SerializeBlockHeader (Block.Header block))) 8) in
  let blockSize :=
    fold_left (fun blockSize tx => uint64_add blockSize (uint64 (Sizeof tx)))
              (Block.Transactions block) blockSize in
  Block.set_Size blockSize block.

Definition main : M unit :=
  match LoadTransactionsFromFolder MempoolPath with
  | (_, Some err) => fmt_Println ["Error loading transactions:"%string; err]
  | (transactions, None) =>
      fmt_Println ["Number of transactions in mempool:"%string; itoa (len transactions)] ;;;
      validTransactions <- main_validate transactions [] ;;
      fmt_Println ["Number of valid transactions:"%string; itoa (len validTransactions)] ;;;
      now <- time_Now_Unix ;;
      let block := main_block now validTransactions in
      let serializedHeader := SerializeBlockHeader (Block.Header block) in
      let blockHash := HashBlockHeader serializedHeader in
      e <- WriteBlockToOutputFile block blockHash ;;
      match e with
      | Some err => fmt_Println ["Error writing block to output file:"%string; err]
      | None => fmt_Println ["Block data written to output.txt"%string]
      end
  end.


(** *** The vocabulary of the specification *)

(** A directory entry that is a record: not a directory, and named like a
    record. *)
Definition is_record (file : FileInfo.t) : bool :=
  negb (FileInfo.IsDir file) && HasSuffix (FileInfo.Name file) ".json".

(** The record of [file] in [folderPath] decodes to [tx]. *)
Definition decodes (folderPath : string) (file : FileInfo.t) (tx : Transaction.t) : Prop :=
  exists data,
    ioutil_ReadFile (folderPath ++ "/" ++ FileInfo.Name file) = inl data
    /\ json_Unmarshal data (Transaction.mk 0 0 [] []) = (tx, None).

(** The record of [file] in [folderPath] is malformed: the decoder reports
    [err]. *)
Definition malformed (folderPath : string) (file : FileInfo.t) (err : error) : Prop :=
  exists data tx,
    ioutil_ReadFile (folderPath ++ "/" ++ FileInfo.Name file) = inl data
    /\ json_Unmarshal data (Transaction.mk 0 0 [] []) = (tx, Some err).

Definition has_input (tx : Transaction.t) : Prop := Transaction.Vin tx <> [].

(** A line of the report: the text and a line break. *)
Definition line (text : list byte) : list byte := text ++ list_byte_of_string nl.

(** The file exists in [w] and begins with [prefix]. *)
Definition begins_with (prefix : list byte) (w : World.t) : Prop :=
  exists rest, World.OutputTxt w = Some (prefix ++ rest).

(** The identifier the first input of a transaction refers to. *)
Definition first_txid (tx : Transaction.t) : list byte :=
  match Transaction.Vin tx with
  | vin :: _ => list_byte_of_string (TxInput.Txid vin)
  | [] => []
  end.

(** The digest of a header, in hexadecimal. *)
Definition digest_text (header : BlockHeader.t) : string :=
  hex.EncodeToString (Array32.bytes (HashBlockHeader (SerializeBlockHeader header))).

(** The report on a block whose first transaction is rendered as
    [coinbase_text]: the digest line, the coinbase line, and one line per
    later transaction. *)
Definition report (block : Block.t) (coinbase_text : list byte) : list byte :=
  List.concat (map line
            (list_byte_of_string (digest_text (Block.Header block))
               :: coinbase_text
               :: map first_txid (tl (Block.Transactions block)))).


(** *** The earlier revision, [main2.go] *)

(** [binary.Write] of a [uint64] in little-endian order: its eight bytes,
    in one write. *)
Definition binary_Write_uint64 (file : File.t) (data : Z) : M (option error) :=
  file_Write file (little_endian 8 data).

(** A [bool] operand under the verb [%v]. *)
Definition fmt_bool (b : bool) : string := if b then "true"%string else "false"%string.

(** The loop of the writer of [main2.go], which skips no transaction. *)
Fixpoint Main2_write_txids (file : File.t) (txs : list Transaction.t) : M (option error) :=
  match txs with
  | [] => ret None
  | tx :: rest =>
      vin0 <- index (Transaction.Vin tx) 0 ;;
      e <- file_WriteString file (TxInput.Txid vin0 ++ nl) ;;
      match e with
      | Some err => ret (Some err)
      | None => Main2_write_txids file rest
      end
  end.

(** [WriteBlockToOutputFile] of [main2.go]: the size, the serialized
    header, the transaction counter, and the identifier lines. *)
Definition Main2_WriteBlockToOutputFile (block : Block.t) : M (option error) :=
  r <- os_Create "output.txt" ;;
  match r with
  | inr err => ret (Some err)
  | inl file =>
      let serializedHeader := SerializeBlockHeader (Block.Header block) in
      e <- binary_Write_uint64 file (Block.Size block) ;;
      match e with
      | Some err => ret (Some err)
      | None =>
          e <- file_Write file serializedHeader ;;
          match e with
          | Some err => ret (Some err)
          | None =>
              e <- binary_Write_uint64 file (Block.TransactionCount block) ;;
              match e with
              | Some err => ret (Some err)
              | None => Main2_write_txids file (Block.Transactions block)
              end
          end
      end
  end.

(** The validation loop of [main] in [main2.go]; the verdict is printed
    after the identifier. *)
Fixpoint Main2_main_validate (transactions validTransactions : list Transaction.t)
  : M (list Transaction.t) :=
  match transactions with
  | [] => ret validTransactions
  | tx :: rest =>
      let err := ValidateTransaction tx in
      if Bool.eqb err false then
        vin0 <- index (Transaction.Vin tx) 0 ;;
        fmt_Printf ("Invalid transaction " ++ TxInput.Txid vin0 ++ ": " ++ fmt_bool err ++ nl) ;;;
        Main2_main_validate rest validTransactions
      else Main2_main_validate rest (validTransactions ++ [tx])
  end.

(** The block [main] of [main2.go] assembles. *)
Definition Main2_main_block (now : Z) (validTransactions : list Transaction.t) : Block.t :=
  let coinbaseTx := Main2.CreateCoinbaseTransaction in
  let validTransactions := [coinbaseTx] ++ validTransactions in
  let block :=
    Block.mk 0 BlockHeader.zero (uint64 (len validTransactions)) validTransactions in
  let block := Block.set_Header (BlockHeader.set_Version 1 (Block.Header block)) block in
  let block :=
    Block.set_Header (BlockHeader.set_Timestamp (uint32 now) (Block.Header block)) block in
  let block :=
    Block.set_Header
      (BlockHeader.set_DifficultyTarget
         "0000ffff00000000000000000000000000000000000000000000000000000000"
         (Block.Header block)) block in
  let block := Block.set_Header (BlockHeader.set_Nonce 0 (Block.Header block)) block in
  let blockSize := uint64 (int_add (len (SerializeBlockHeader (Block.Header block))) 8) in
  let blockSize :=
    fold_left (fun blockSize tx => uint64_add blockSize (uint64 (Sizeof tx)))
              (Block.Transactions block) blockSize in
  Block.set_Size blockSize block.

(** [main] of [main2.go]. The operand of [unsafe.Sizeof] is not evaluated:
    the call is a constant of the type of [validTransactions[0]]. *)
Definition Main2_main : M unit :=
  match LoadTransactionsFromFolder MempoolPath with
  | (_, Some err) => fmt_Println ["Error loading transactions:"%string; err]
  | (transactions, None) =>
      fmt_Println ["Number of transactions in mempool:"%string; itoa (len transactions)] ;;;
      validTransactions <- Main2_main_validate transactions [] ;;
      fmt_Println ["Number of valid transactions:"%string; itoa (len validTransactions)] ;;;
      fmt_Println ["Size of first valid transaction:"%string;
                   itoa (Sizeof (nth 0 validTransactions (Transaction.mk 0 0 [] [])))] ;;;
      now <- time_Now_Unix ;;
      let block := Main2_main_block now validTransactions in
      e <- Main2_WriteBlockToOutputFile block ;;
      match e with
      | Some err => fmt_Println ["Error writing block to output file:"%string; err]
      | None => fmt_Println ["Block data written to output.txt"%string]
      end
  end.

(** *** More vocabulary *)

(** The values a [uint32] can hold, and the headers whose three numbers
    are such values. *)
Definition is_uint32 (z : Z) : Prop := 0 <= z < 2 ^ 32.

Definition header_fits (header : BlockHeader.t) : Prop :=
  is_uint32 (BlockHeader.Version header)
  /\ is_uint32 (BlockHeader.Timestamp header)
  /\ is_uint32 (BlockHeader.Nonce header).

(** The identifier the first input of a transaction refers to, as text. *)
Definition first_txid_text (tx : Transaction.t) : string :=
  match Transaction.Vin tx with
  | vin :: _ => TxInput.Txid vin
  | [] => EmptyString
  end.

(** The transactions the validator refuses, in order. *)
Definition refused (transactions : list Transaction.t) : list Transaction.t :=
  filter (fun tx => negb (ValidateTransaction tx)) transactions.

(** What the validation loop of the canonical revision prints for them. *)
Definition refusals (transactions : list Transaction.t) : string :=
  fold_right String.append EmptyString
    (map (fun tx => ("Invalid transaction " ++ first_txid_text tx ++ nl)%string)
         (refused transactions)).

(** What the validation loop of the earlier revision prints for them. *)
Definition Main2_refusals (transactions : list Transaction.t) : string :=
  fold_right String.append EmptyString
    (map (fun tx => ("Invalid transaction " ++ first_txid_text tx ++ ": false" ++ nl)%string)
         (refused transactions)).

(** The file the earlier revision leaves for a block. *)
Definition Main2_report (block : Block.t) : list byte :=
  little_endian 8 (Block.Size block)
    ++ SerializeBlockHeader (Block.Header block)
    ++ little_endian 8 (Block.TransactionCount block)
    ++ List.concat (map line (map first_txid (Block.Transactions block))).

(** * Properties *)

(** ** Machine integers *)

Lemma int_of_is_int (z : Z) : is_int z -> int z = z.
Proof.
  unfold is_int, MinInt, MaxInt, int, int_bits, wrap_signed.
  intros Hz. change (2 ^ (64 - 1)) with 9223372036854775808.
  change (2 ^ 64) with 18446744073709551616.
  rewrite Z.mod_small; lia.
Qed.

Lemma int_is_int (z : Z) : is_int (int z).
Proof.
  unfold is_int, MinInt, MaxInt, int, int_bits, wrap_signed.
  change (2 ^ (64 - 1)) with 9223372036854775808.
  change (2 ^ 64) with 18446744073709551616.
  pose proof (Z.mod_pos_bound (z + 9223372036854775808) 18446744073709551616).
  lia.
Qed.

Lemma int_add_int_l (a b : Z) : int_add (int a) b = int (a + b).
Proof.
  unfold int_add, int, wrap_signed. f_equal.
  replace ((a + 2 ^ (int_bits - 1)) mod 2 ^ int_bits - 2 ^ (int_bits - 1) + b
             + 2 ^ (int_bits - 1))
    with ((a + 2 ^ (int_bits - 1)) mod 2 ^ int_bits + b) by lia.
  rewrite Zplus_mod_idemp_l. f_equal. lia.
Qed.

Lemma uint64_small (z : Z) : 0 <= z <= MaxUint64 -> uint64 z = z.
Proof.
  unfold uint64, wrap_unsigned, MaxUint64. intros Hz.
  apply Z.mod_small. lia.
Qed.

Lemma uint64_add_uint64_l (a b : Z) : uint64_add (uint64 a) b = uint64 (a + b).
Proof. unfold uint64_add, uint64, wrap_unsigned. apply Zplus_mod_idemp_l. Qed.

Lemma uint64_add_uint64_r (a b : Z) : uint64_add a (uint64 b) = uint64 (a + b).
Proof. unfold uint64_add, uint64, wrap_unsigned. apply Zplus_mod_idemp_r. Qed.

(** A running total kept on [int] is the exact total, reduced once. *)
Lemma fold_int_add {A : Type} (f : A -> Z) (l : list A) (a : Z) :
  fold_left (fun acc x => int_add acc (f x)) l (int a) = int (a + sumZ (map f l)).
Proof.
  revert a. induction l as [| x l IH]; intros a; cbn [fold_left map sumZ fold_right].
  - f_equal. lia.
  - rewrite int_add_int_l, IH. f_equal. unfold sumZ. lia.
Qed.

(** The same for a running total kept on [uint64]. *)
Lemma fold_uint64_add {A : Type} (f : A -> Z) (l : list A) (a : Z) :
  fold_left (fun acc x => uint64_add acc (uint64 (f x))) l (uint64 a)
  = uint64 (a + sumZ (map f l)).
Proof.
  revert a. induction l as [| x l IH]; intros a; cbn [fold_left map sumZ fold_right].
  - f_equal. lia.
  - rewrite uint64_add_uint64_r, IH.
    unfold uint64, wrap_unsigned, sumZ.
    rewrite <- Z.add_assoc, Zplus_mod_idemp_l. reflexivity.
Qed.

(** ** The validator *)

(** What [ValidateTransaction] compares: the two exact totals, each reduced
    to an [int]. *)
Lemma ValidateTransaction_totals (tx : Transaction.t) :
  ValidateTransaction tx = (int (input_total tx) >? int (output_total tx)).
Proof.
  unfold ValidateTransaction, input_total, output_total.
  change 0 with (int 0) at 1 2.
  rewrite (fold_int_add (fun vin => Prevout.Value (TxInput.PrevOut vin))).
  rewrite (fold_int_add TxOutput.Value).
  cbn [Z.add]. destruct (_ >? _); reflexivity.
Qed.

Lemma ValidateTransaction_equal_totals (tx : Transaction.t) :
  input_total tx = output_total tx -> ValidateTransaction tx = false.
Proof.
  intros H. rewrite ValidateTransaction_totals, H.
  rewrite Z.gtb_ltb. apply Z.ltb_irrefl.
Qed.

(** C1, as amended. When the exact total of the inputs' prevout values and
    the exact total of the outputs' values both fit an [int],
    [ValidateTransaction] answers true exactly when the first is strictly
    greater than the second; equal totals are refused. *)
Theorem ValidateTransaction_iff_fee_positive (tx : Transaction.t) :
  is_int (input_total tx) ->
  is_int (output_total tx) ->
  (ValidateTransaction tx = true <-> input_total tx > output_total tx)
  /\ (input_total tx = output_total tx -> ValidateTransaction tx = false).
Proof.
  intros Hin Hout. split.
  - rewrite ValidateTransaction_totals.
    rewrite (int_of_is_int _ Hin), (int_of_is_int _ Hout).
    rewrite Z.gtb_ltb, Z.ltb_lt. lia.
  - apply ValidateTransaction_equal_totals.
Qed.

(** ** The coinbase constructor *)

(** C3. In both revisions [CreateCoinbaseTransaction] has version 1,
    locktime 0, a single input with previous index -1, the coinbase flag
    set, sequence [0xFFFFFFFF] and a prevout of value 0, and a single output
    that carries the reward with placeholder script fields: 0 with empty
    texts in the canonical revision, 1000000 with naming texts in the
    earlier one. *)
Theorem CreateCoinbaseTransaction_shape :
  (Transaction.Version CreateCoinbaseTransaction = 1
   /\ Transaction.Locktime CreateCoinbaseTransaction = 0
   /\ (exists vin,
         Transaction.Vin CreateCoinbaseTransaction = [vin]
         /\ TxInput.Vout vin = -1
         /\ TxInput.IsCoinbase vin = true
         /\ TxInput.Sequence vin = 4294967295
         /\ Prevout.Value (TxInput.PrevOut vin) = 0)
   /\ Transaction.Vout CreateCoinbaseTransaction
      = [TxOutput.mk EmptyString EmptyString EmptyString EmptyString 0])
  /\
  (Transaction.Version Main2.CreateCoinbaseTransaction = 1
   /\ Transaction.Locktime Main2.CreateCoinbaseTransaction = 0
   /\ (exists vin,
         Transaction.Vin Main2.CreateCoinbaseTransaction = [vin]
         /\ TxInput.Vout vin = -1
         /\ TxInput.IsCoinbase vin = true
         /\ TxInput.Sequence vin = 4294967295
         /\ Prevout.Value (TxInput.PrevOut vin) = 0)
   /\ Transaction.Vout Main2.CreateCoinbaseTransaction
      = [TxOutput.mk "script pubkey" "script pubkey asm" "script pubkey type"
                     "script pubkey address" 1000000]).
Proof.
  split; (split; [reflexivity | split; [reflexivity | split; [| reflexivity]]]);
    eexists; (split; [reflexivity |]); repeat split.
Qed.

(** ** The header serializer *)

Lemma Z_of_byte_of_Z (z : Z) : Z_of_byte (byte_of_Z z) = z mod 256.
Proof.
  unfold Z_of_byte, byte_of_Z.
  pose proof (Z.mod_pos_bound z 256 ltac:(lia)) as Hb.
  destruct (Byte.of_N (Z.to_N (z mod 256))) as [b |] eqn:E.
  - apply Byte.to_of_N in E. rewrite E. apply Z2N.id. lia.
  - apply Byte.of_N_None_iff in E. lia.
Qed.

Lemma length_list_byte_of_string (s : string) :
  List.length (list_byte_of_string s) = String.length s.
Proof.
  induction s as [| c s IH]; [reflexivity |].
  cbn. f_equal. exact IH.
Qed.

Lemma length_little_endian (n : nat) (v : Z) : List.length (little_endian n v) = n.
Proof.
  revert v. induction n as [| n IH]; intros v; cbn; [reflexivity |].
  f_equal. apply IH.
Qed.

(** Reading back the [n] low bytes gives the number modulo [256 ^ n]. *)
Lemma le_value_little_endian (n : nat) (v : Z) :
  le_value (little_endian n v) = v mod 256 ^ Z.of_nat n.
Proof.
  revert v. induction n as [| n IH]; intros v.
  - cbn. symmetry. apply Z.mod_1_r.
  - cbn [little_endian le_value]. rewrite Z_of_byte_of_Z, IH.
    rewrite Nat2Z.inj_succ, Z.pow_succ_r by lia.
    rewrite Z.rem_mul_r by (try apply Z.pow_pos_nonneg; lia).
    reflexivity.
Qed.

(** [serializeUint32] writes the four low bytes, lowest first. *)
Lemma serializeUint32_little_endian (value : Z) :
  serializeUint32 value = little_endian 4 value.
Proof.
  unfold serializeUint32, PutUint32. cbn [repeat store little_endian].
  rewrite !Z.shiftr_div_pow2 by lia.
  rewrite !Z.div_div by lia.
  reflexivity.
Qed.

Lemma le_value_serializeUint32 (value : Z) :
  le_value (serializeUint32 value) = uint32 value.
Proof.
  rewrite serializeUint32_little_endian, le_value_little_endian. reflexivity.
Qed.

(** C4. The serialized header is the concatenation, in declaration order
    and with nothing in between, of the version on four bytes little-endian,
    the 32 bytes of the previous block hash, the 32 bytes of the merkle
    root, the timestamp on four bytes little-endian, the bytes of the
    difficulty target text as they are, and the nonce on four bytes
    little-endian; the four-byte fields read back as the [uint32] values,
    and the whole is 76 bytes longer than the text. Being a function of the
    header, the result is the same at every call. *)
Theorem SerializeBlockHeader_layout (header : BlockHeader.t) :
  SerializeBlockHeader header
  = little_endian 4 (BlockHeader.Version header)
      ++ Array32.bytes (BlockHeader.PreviousBlockHash header)
      ++ Array32.bytes (BlockHeader.MerkleRoot header)
      ++ little_endian 4 (BlockHeader.Timestamp header)
      ++ list_byte_of_string (BlockHeader.DifficultyTarget header)
      ++ little_endian 4 (BlockHeader.Nonce header)
  /\ List.length (Array32.bytes (BlockHeader.PreviousBlockHash header)) = 32%nat
  /\ List.length (Array32.bytes (BlockHeader.MerkleRoot header)) = 32%nat
  /\ le_value (little_endian 4 (BlockHeader.Version header))
     = uint32 (BlockHeader.Version header)
  /\ le_value (little_endian 4 (BlockHeader.Timestamp header))
     = uint32 (BlockHeader.Timestamp header)
  /\ le_value (little_endian 4 (BlockHeader.Nonce header))
     = uint32 (BlockHeader.Nonce header)
  /\ len (SerializeBlockHeader header)
     = 76 + len_string (BlockHeader.DifficultyTarget header).
Proof.
  assert (Hcat : SerializeBlockHeader header
                 = little_endian 4 (BlockHeader.Version header)
                     ++ Array32.bytes (BlockHeader.PreviousBlockHash header)
                     ++ Array32.bytes (BlockHeader.MerkleRoot header)
                     ++ little_endian 4 (BlockHeader.Timestamp header)
                     ++ list_byte_of_string (BlockHeader.DifficultyTarget header)
                     ++ little_endian 4 (BlockHeader.Nonce header)).
  { unfold SerializeBlockHeader. cbn [app].
    rewrite !serializeUint32_little_endian, <- !app_assoc. reflexivity. }
  repeat split.
  - exact Hcat.
  - apply Array32.bytes_length.
  - apply Array32.bytes_length.
  - apply le_value_little_endian.
  - apply le_value_little_endian.
  - apply le_value_little_endian.
  - rewrite Hcat. unfold len, len_string.
    rewrite !length_app, !length_little_endian, !Array32.bytes_length,
      length_list_byte_of_string.
    lia.
Qed.

Lemma length_SerializeBlockHeader (header : BlockHeader.t) :
  len (SerializeBlockHeader header)
  = 76 + len_string (BlockHeader.DifficultyTarget header).
Proof.
  unfold SerializeBlockHeader, len, len_string. cbn [app].
  rewrite !serializeUint32_little_endian.
  rewrite !length_app, !length_little_endian, !Array32.bytes_length,
    length_list_byte_of_string.
  lia.
Qed.

(** ** The header digest *)

(** C5. [HashBlockHeader] is SHA-256 applied to the 32 raw bytes of the
    SHA-256 digest of its argument, and its result has 32 bytes. *)
Theorem HashBlockHeader_double_sha256 (serializedHeader : list byte) :
  HashBlockHeader serializedHeader
  = sha256.Sum256 (Array32.bytes (sha256.Sum256 serializedHeader))
  /\ List.length (Array32.bytes (sha256.Sum256 serializedHeader)) = 32%nat
  /\ List.length (Array32.bytes (HashBlockHeader serializedHeader)) = 32%nat.
Proof.
  split; [reflexivity |]. split; apply Array32.bytes_length.
Qed.

(** ** The assembled block *)

Lemma CreateCoinbaseTransaction_rejected :
  ValidateTransaction CreateCoinbaseTransaction = false.
Proof. reflexivity. Qed.

Lemma main_block_Transactions (now : Z) (validTransactions : list Transaction.t) :
  Block.Transactions (main_block now validTransactions)
  = CreateCoinbaseTransaction :: validTransactions.
Proof. reflexivity. Qed.

Lemma main_block_Header (now : Z) (validTransactions : list Transaction.t) :
  Block.Header (main_block now validTransactions)
  = BlockHeader.mk 1 Array32.zero Array32.zero (uint32 now)
      "0000ffff00000000000000000000000000000000000000000000000000000000" 0.
Proof. reflexivity. Qed.

Lemma len_cons {A : Type} (x : A) (l : list A) : len (x :: l) = 1 + len l.
Proof. unfold len. cbn [List.length]. lia. Qed.

Lemma len_nonneg {A : Type} (l : list A) : 0 <= len l.
Proof. unfold len. lia. Qed.

(** C2. For accepted transactions, as many as a slice can hold, the block
    lists the coinbase transaction followed by them: the coinbase
    transaction is at index 0 and at no other index, and the count is one
    more than the number of accepted transactions. *)
Theorem main_block_coinbase_first (now : Z) (accepted : list Transaction.t) :
  Forall (fun tx => ValidateTransaction tx = true) accepted ->
  len (CreateCoinbaseTransaction :: accepted) <= MaxInt ->
  Block.Transactions (main_block now accepted) = [CreateCoinbaseTransaction] ++ accepted
  /\ (forall i : nat,
        nth_error (Block.Transactions (main_block now accepted)) i
        = Some CreateCoinbaseTransaction <-> i = 0%nat)
  /\ Block.TransactionCount (main_block now accepted) = 1 + len accepted.
Proof.
  intros Hacc Hlen. split; [reflexivity |]. split.
  - intros i. rewrite main_block_Transactions. split.
    + destruct i as [| j]; [reflexivity |]. cbn [nth_error]. intros Hj.
      apply nth_error_In in Hj.
      rewrite Forall_forall in Hacc. apply Hacc in Hj.
      rewrite CreateCoinbaseTransaction_rejected in Hj. discriminate.
    + intros ->. reflexivity.
  - change (Block.TransactionCount (main_block now accepted))
      with (uint64 (len (CreateCoinbaseTransaction :: accepted))).
    rewrite uint64_small.
    + apply len_cons.
    + pose proof (len_nonneg (CreateCoinbaseTransaction :: accepted)).
      unfold MaxInt, MaxUint64 in *. lia.
Qed.

(** C7. Whenever the figure fits a [uint64], the size [main] computes for
    the block is the length of the serialized header, plus 8, plus the sum
    over all the transactions of the block, the coinbase transaction among
    them, of what [unsafe.Sizeof] gives for a transaction. *)
Theorem main_block_Size (now : Z) (accepted : list Transaction.t) :
  len (SerializeBlockHeader (Block.Header (main_block now accepted))) + 8
    + sumZ (map Sizeof (Block.Transactions (main_block now accepted))) <= MaxUint64 ->
  Block.Size (main_block now accepted)
  = len (SerializeBlockHeader (Block.Header (main_block now accepted))) + 8
    + sumZ (map Sizeof (Block.Transactions (main_block now accepted))).
Proof.
  intros Hfits.
  rewrite main_block_Transactions in *.
  change (Block.Size (main_block now accepted))
    with (fold_left (fun blockSize tx => uint64_add blockSize (uint64 (Sizeof tx)))
            (CreateCoinbaseTransaction :: accepted)
            (uint64 (int_add
               (len (SerializeBlockHeader (Block.Header (main_block now accepted)))) 8))).
  rewrite fold_uint64_add.
  rewrite length_SerializeBlockHeader in *. rewrite main_block_Header in *.
  cbn [BlockHeader.DifficultyTarget] in *.
  change (int_add (76 + len_string _) 8) with 148.
  change (76 + len_string _ + 8) with 148 in *.
  apply uint64_small. split; [| exact Hfits].
  assert (Hs : forall l, 0 <= sumZ (map Sizeof l)).
  { induction l as [| x l IH]; [cbn; lia |].
    change (0 <= Sizeof x + sumZ (map Sizeof l)). unfold Sizeof at 1. lia. }
  specialize (Hs (CreateCoinbaseTransaction :: accepted)). lia.
Qed.

(** ** The loader *)

(** The loop over entries whose records all decode: the decoded
    transactions are appended in the order of the entries, and the other
    entries leave no trace. *)
Lemma load_files_decoded (folderPath : string) (files : list FileInfo.t) :
  forall (transactions txs : list Transaction.t),
    Forall2 (decodes folderPath) (filter is_record files) txs ->
    load_files folderPath files transactions = (transactions ++ txs, None).
Proof.
  induction files as [| file files IH]; intros transactions txs Hdec.
  - cbn in Hdec. inversion Hdec; subst. cbn. rewrite app_nil_r. reflexivity.
  - cbn [filter] in Hdec. cbn [load_files]. fold (is_record file).
    destruct (is_record file) eqn:Hrec.
    + inversion Hdec as [| f tx fs txs' Hfile Hrest]; subst.
      destruct Hfile as (data & Hread & Hjson).
      rewrite Hread, Hjson.
      rewrite (IH _ _ Hrest), <- app_assoc. reflexivity.
    + apply IH. exact Hdec.
Qed.

(** The loop up to the first malformed record: the error of the decoder and
    the nil slice, whatever was decoded before. *)
Lemma load_files_malformed (folderPath : string) (files : list FileInfo.t) :
  forall (transactions : list Transaction.t) good txs bad rest err,
    filter is_record files = good ++ bad :: rest ->
    Forall2 (decodes folderPath) good txs ->
    malformed folderPath bad err ->
    load_files folderPath files transactions = ([], Some err).
Proof.
  induction files as [| file files IH];
    intros transactions good txs bad rest err Hsplit Hgood Hbad.
  - cbn in Hsplit. destruct good; discriminate.
  - cbn [filter] in Hsplit. cbn [load_files]. fold (is_record file).
    destruct (is_record file) eqn:Hrec.
    + destruct good as [| g good].
      * cbn in Hsplit. injection Hsplit as -> _.
        destruct Hbad as (data & tx & Hread & Hjson).
        rewrite Hread, Hjson. reflexivity.
      * cbn in Hsplit. injection Hsplit as -> Hsplit.
        inversion Hgood as [| f tx fs txs' Hfile Hrest]; subst.
        destruct Hfile as (data & Hread & Hjson).
        rewrite Hread, Hjson.
        eapply IH; eassumption.
    + eapply IH; eassumption.
Qed.

(** C8. Of the entries of the folder, only the records count: files that
    are not directories and whose name ends in [.json]. When all of them
    decode, the loader returns the decoded transactions in the order of the
    entries and no error. When one of them is malformed and those before it
    decode, the loader returns the error of the decoder and no transaction. *)
Theorem LoadTransactionsFromFolder_spec (folderPath : string) (files : list FileInfo.t) :
  ioutil_ReadDir folderPath = inl files ->
  (forall txs,
      Forall2 (decodes folderPath) (filter is_record files) txs ->
      LoadTransactionsFromFolder folderPath = (txs, None))
  /\ (forall good txs bad rest err,
        filter is_record files = good ++ bad :: rest ->
        Forall2 (decodes folderPath) good txs ->
        malformed folderPath bad err ->
        LoadTransactionsFromFolder folderPath = ([], Some err)).
Proof.
  intros Hdir. unfold LoadTransactionsFromFolder. rewrite Hdir. split.
  - intros txs Hdec. apply (load_files_decoded folderPath files [] txs Hdec).
  - intros good txs bad rest err Hsplit Hgood Hbad.
    eapply load_files_malformed; eassumption.
Qed.

(** ** The report writer *)

Lemma bind_Returned {A B : Type} (m : M A) (k : A -> M B) (w w' : World.t) (a : A) :
  m w = (Returned a, w') -> bind m k w = k a w'.
Proof. intros H. unfold bind. rewrite H. reflexivity. Qed.

Lemma bind_Panicked {A B : Type} (m : M A) (k : A -> M B) (w w' : World.t) (msg : string) :
  m w = (Panicked msg, w') -> bind m k w = (Panicked msg, w').
Proof. intros H. unfold bind. rewrite H. reflexivity. Qed.

Lemma put_nil (w : World.t) : World.put [] w = w.
Proof.
  destruct w as [console clock [content |] fault room]; unfold World.put; cbn;
    rewrite ?app_nil_r, Nat.sub_0_r; reflexivity.
Qed.

Lemma put_put (b1 b2 : list byte) (w : World.t) :
  World.put b2 (World.put b1 w) = World.put (b1 ++ b2) w.
Proof.
  destruct w as [console clock [content |] fault room]; unfold World.put; cbn;
    rewrite ?app_assoc, length_app, Nat.sub_add_distr; reflexivity.
Qed.

Lemma Room_put (b : list byte) (w : World.t) :
  World.Room (World.put b w) = (World.Room w - List.length b)%nat.
Proof. reflexivity. Qed.

Lemma file_Write_fits (file : File.t) (b : list byte) (w : World.t) :
  (List.length b <= World.Room w)%nat ->
  file_Write file b w = (Returned None, World.put b w).
Proof.
  intros Hfit. unfold file_Write.
  apply Nat.leb_le in Hfit. rewrite Hfit. reflexivity.
Qed.

Lemma list_byte_of_string_app (s t : string) :
  list_byte_of_string (s ++ t) = list_byte_of_string s ++ list_byte_of_string t.
Proof.
  induction s as [| c s IH]; [reflexivity |].
  cbn. f_equal. exact IH.
Qed.

Lemma file_WriteString_line (file : File.t) (s : string) (w : World.t) :
  (List.length (line (list_byte_of_string s)) <= World.Room w)%nat ->
  file_WriteString file (s ++ nl) w
  = (Returned None, World.put (line (list_byte_of_string s)) w).
Proof.
  intros Hfit. unfold file_WriteString.
  rewrite list_byte_of_string_app. apply file_Write_fits. exact Hfit.
Qed.

Lemma first_txid_has_input (tx : Transaction.t) :
  has_input tx ->
  exists vin rest,
    Transaction.Vin tx = vin :: rest
    /\ first_txid tx = list_byte_of_string (TxInput.Txid vin).
Proof.
  unfold has_input, first_txid. destruct (Transaction.Vin tx) as [| vin rest].
  - intros H. contradiction H. reflexivity.
  - intros _. exists vin, rest. split; reflexivity.
Qed.

(** The loop past index 0 writes one identifier line per transaction. *)
Lemma write_txids_lines (file : File.t) (txs : list Transaction.t) :
  forall (i : Z) (w : World.t),
    0 < i ->
    Forall has_input txs ->
    (List.length (List.concat (map line (map first_txid txs))) <= World.Room w)%nat ->
    write_txids file i txs w
    = (Returned None, World.put (List.concat (map line (map first_txid txs))) w).
Proof.
  induction txs as [| tx txs IH]; intros i w Hi Hin Hfit.
  - cbn. rewrite put_nil. reflexivity.
  - cbn [write_txids].
    destruct (Z.eqb_spec i 0) as [-> | _]; [lia |].
    inversion Hin as [| tx' txs' Htx Htxs]; subst.
    destruct (first_txid_has_input tx Htx) as (vin & rest & Hvin & Hid).
    cbn [map List.concat] in *. rewrite length_app in Hfit.
    unfold index. rewrite Hvin. cbn [nth_error].
    rewrite (bind_Returned _ _ w w vin) by reflexivity.
    rewrite Hid in *.
    erewrite bind_Returned by (apply file_WriteString_line; lia).
    cbv beta iota.
    rewrite IH; [| lia | exact Htxs | rewrite Room_put; lia].
    rewrite put_put. reflexivity.
Qed.

(** The two digits of a byte are lowercase hexadecimal digits, and read
    back as the byte. *)
Lemma hex_digits_of_byte (v : byte) :
  hex.lower_value (hex.digit (Z.shiftr (Z_of_byte v) 4)) = Some (Z.shiftr (Z_of_byte v) 4)
  /\ hex.lower_value (hex.digit (Z.land (Z_of_byte v) 0x0f))
     = Some (Z.land (Z_of_byte v) 0x0f)
  /\ byte_of_Z (16 * Z.shiftr (Z_of_byte v) 4 + Z.land (Z_of_byte v) 0x0f) = v.
Proof. destruct v; vm_compute; repeat split. Qed.

Lemma decode_lower_EncodeToString (src : list byte) :
  hex.decode_lower (hex.EncodeToString src) = Some src.
Proof.
  induction src as [| v src IH]; [reflexivity |].
  cbn [hex.EncodeToString hex.decode_lower].
  destruct (hex_digits_of_byte v) as (Hhi & Hlo & Hv).
  rewrite Hhi, Hlo, IH, Hv. reflexivity.
Qed.

(** Up to its loop, a writer that meets no fault has written the digest
    line and the line of the first transaction. *)
Lemma WriteBlockToOutputFile_head
    (block : Block.t) (hash : Array32.t) (w : World.t)
    (coinbase : Transaction.t) (rest : list Transaction.t) (text : list byte) :
  Block.Transactions block = coinbase :: rest ->
  json_Marshal coinbase = inl text ->
  World.CreateFault w = None ->
  (List.length (line (list_byte_of_string (digest_text (Block.Header block))))
   + List.length (line text) <= World.Room w)%nat ->
  WriteBlockToOutputFile block hash w
  = write_txids (File.mk "output.txt") 1 rest
      (World.put (line (list_byte_of_string (digest_text (Block.Header block))) ++ line text)
                 (World.truncate w)).
Proof.
  intros Htxs Hjson Hcreate Hfit.
  assert (Htext : List.length (line text) = (List.length text + 1)%nat)
    by (unfold line; rewrite length_app; reflexivity).
  unfold WriteBlockToOutputFile.
  assert (Hc : os_Create "output.txt" w
               = (Returned (inl (File.mk "output.txt")), World.truncate w)).
  { unfold os_Create. rewrite Hcreate. reflexivity. }
  rewrite (bind_Returned _ _ _ _ _ Hc). cbv beta iota zeta.
  fold (HashBlockHeader (SerializeBlockHeader (Block.Header block))).
  fold (digest_text (Block.Header block)).
  erewrite bind_Returned
    by (apply file_WriteString_line; change (World.Room (World.truncate w))
          with (World.Room w); lia).
  cbv beta iota.
  unfold index at 1. rewrite Htxs. cbn [nth_error].
  erewrite bind_Returned by reflexivity.
  rewrite Hjson.
  erewrite bind_Returned
    by (apply file_Write_fits; rewrite Room_put;
        change (World.Room (World.truncate w)) with (World.Room w); lia).
  cbv beta iota.
  erewrite bind_Returned
    by (apply file_Write_fits; rewrite !Room_put;
        change (World.Room (World.truncate w)) with (World.Room w);
        change (List.length (list_byte_of_string nl)) with 1%nat; lia).
  cbv beta iota.
  cbn [write_txids Z.eqb Z.add].
  rewrite !put_put.
  change (line text) with (text ++ list_byte_of_string nl).
  reflexivity.
Qed.

(** C6. For a block that has a first transaction and whose transactions all
    have an input, when the device creates the file and has room for the
    report and the first transaction is rendered as [text], the writer
    returns no error and leaves in the fresh file the report and nothing
    else: the line of the digest of the serialized header, hashed twice, in
    lowercase hexadecimal; the line of the rendering of the first
    transaction; then, in order, one line per later transaction with the
    identifier its first input refers to. *)
Theorem WriteBlockToOutputFile_report
    (block : Block.t) (hash : Array32.t) (w : World.t)
    (coinbase : Transaction.t) (rest : list Transaction.t) (text : list byte) :
  Block.Transactions block = coinbase :: rest ->
  Forall has_input (Block.Transactions block) ->
  json_Marshal coinbase = inl text ->
  World.CreateFault w = None ->
  (List.length (report block text) <= World.Room w)%nat ->
  WriteBlockToOutputFile block hash w
  = (Returned None, World.put (report block text) (World.truncate w))
  /\ World.OutputTxt (World.put (report block text) (World.truncate w))
     = Some (report block text)
  /\ report block text
     = line (list_byte_of_string (digest_text (Block.Header block)))
         ++ line text
         ++ List.concat (map line (map first_txid rest))
  /\ hex.decode_lower (digest_text (Block.Header block))
     = Some (Array32.bytes
               (sha256.Sum256
                  (Array32.bytes (sha256.Sum256 (SerializeBlockHeader (Block.Header block)))))).
Proof.
  intros Htxs Hin Hjson Hcreate Hfit.
  assert (Hreport : report block text
                    = line (list_byte_of_string (digest_text (Block.Header block)))
                        ++ line text
                        ++ List.concat (map line (map first_txid rest))).
  { unfold report. rewrite Htxs. reflexivity. }
  split; [| split; [reflexivity | split; [exact Hreport |]]].
  - rewrite Hreport in *. rewrite !length_app in Hfit.
    rewrite (WriteBlockToOutputFile_head block hash w coinbase rest text)
      by (assumption || lia).
    rewrite write_txids_lines.
    + rewrite put_put, <- app_assoc. reflexivity.
    + lia.
    + rewrite Htxs in Hin. inversion Hin; assumption.
    + rewrite Room_put, length_app.
      change (World.Room (World.truncate w)) with (World.Room w). lia.
  - apply decode_lower_EncodeToString.
Qed.

Lemma length_EncodeToString (src : list byte) :
  String.length (hex.EncodeToString src) = (2 * List.length src)%nat.
Proof.
  induction src as [| v src IH]; [reflexivity |].
  cbn [hex.EncodeToString String.length List.length]. rewrite IH. lia.
Qed.

Lemma length_digest_line (header : BlockHeader.t) :
  List.length (line (list_byte_of_string (digest_text header))) = 65%nat.
Proof.
  unfold line, digest_text.
  rewrite length_app, length_list_byte_of_string, length_EncodeToString,
    Array32.bytes_length.
  reflexivity.
Qed.

(** A block without any transaction is outside the data model, where the
    coinbase transaction is always at index 0: on such a block the writer
    panics once the digest line is written. *)
Lemma WriteBlockToOutputFile_no_transaction
    (block : Block.t) (hash : Array32.t) (w : World.t) :
  Block.Transactions block = [] ->
  World.CreateFault w = None ->
  (65 <= World.Room w)%nat ->
  WriteBlockToOutputFile block hash w
  = (Panicked out_of_range,
     World.put (line (list_byte_of_string (digest_text (Block.Header block))))
               (World.truncate w)).
Proof.
  intros Htxs Hcreate Hroom. unfold WriteBlockToOutputFile.
  assert (Hc : os_Create "output.txt" w
               = (Returned (inl (File.mk "output.txt")), World.truncate w)).
  { unfold os_Create. rewrite Hcreate. reflexivity. }
  rewrite (bind_Returned _ _ _ _ _ Hc). cbv beta iota zeta.
  fold (HashBlockHeader (SerializeBlockHeader (Block.Header block))).
  fold (digest_text (Block.Header block)).
  erewrite bind_Returned
    by (apply file_WriteString_line; rewrite length_digest_line; exact Hroom).
  cbv beta iota. rewrite Htxs. reflexivity.
Qed.

(** Conversely, a write that reports no error has appended all its bytes. *)
Lemma file_Write_nil (file : File.t) (b : list byte) (w w' : World.t) (r : outcome (option error)) :
  file_Write file b w = (r, w') ->
  (r = Returned None /\ w' = World.put b w) \/ (exists err, r = Returned (Some err)).
Proof.
  unfold file_Write. destruct (_ <=? _)%nat; intros H; injection H as <- <-.
  - left. split; reflexivity.
  - right. eexists. reflexivity.
Qed.

Lemma write_txids_nil (file : File.t) (txs : list Transaction.t) :
  forall (i : Z) (w w' : World.t),
    0 < i ->
    write_txids file i txs w = (Returned None, w') ->
    w' = World.put (List.concat (map line (map first_txid txs))) w.
Proof.
  induction txs as [| tx txs IH]; intros i w w' Hi Hrun.
  - cbn in Hrun. injection Hrun as <-. symmetry. apply put_nil.
  - cbn [write_txids] in Hrun.
    destruct (Z.eqb_spec i 0) as [-> | _]; [lia |].
    cbn [map List.concat]. unfold first_txid at 1.
    unfold bind at 1 in Hrun. unfold index in Hrun.
    destruct (Transaction.Vin tx) as [| vin vins]; cbn in Hrun; [discriminate |].
    unfold bind, file_WriteString in Hrun.
    rewrite list_byte_of_string_app in Hrun.
    destruct (file_Write file (list_byte_of_string (TxInput.Txid vin) ++ list_byte_of_string nl) w)
      as [r w1] eqn:Hw.
    destruct (file_Write_nil _ _ _ _ _ Hw) as [[-> ->] | [err ->]].
    + apply IH in Hrun; [| lia]. rewrite Hrun, put_put. reflexivity.
    + discriminate.
Qed.

(** A writer that returns no error has left the report, and nothing else,
    in the fresh file. *)
Lemma WriteBlockToOutputFile_nil (block : Block.t) (hash : Array32.t) (w w' : World.t) :
  WriteBlockToOutputFile block hash w = (Returned None, w') ->
  exists coinbase rest text,
    Block.Transactions block = coinbase :: rest
    /\ json_Marshal coinbase = inl text
    /\ w' = World.put (report block text) (World.truncate w).
Proof.
  unfold WriteBlockToOutputFile, os_Create, bind at 1.
  destruct (World.CreateFault w) as [err |]; [discriminate |].
  cbv beta iota zeta.
  fold (HashBlockHeader (SerializeBlockHeader (Block.Header block))).
  fold (digest_text (Block.Header block)).
  unfold file_WriteString at 1. rewrite list_byte_of_string_app.
  fold (line (list_byte_of_string (digest_text (Block.Header block)))).
  set (first := line (list_byte_of_string (digest_text (Block.Header block)))).
  unfold bind at 1.
  destruct (file_Write (File.mk "output.txt") first (World.truncate w)) as [r1 w1] eqn:H1.
  destruct (file_Write_nil _ _ _ _ _ H1) as [[-> ->] | [err ->]]; [| discriminate].
  unfold bind at 1, index.
  destruct (Block.Transactions block) as [| coinbase rest] eqn:Htxs; [discriminate |].
  cbn [nth_error]. unfold ret at 1.
  destruct (json_Marshal coinbase) as [text | err] eqn:Hjson; [| discriminate].
  unfold bind at 1.
  destruct (file_Write (File.mk "output.txt") text (World.put first (World.truncate w)))
    as [r2 w2] eqn:H2.
  destruct (file_Write_nil _ _ _ _ _ H2) as [[-> ->] | [err ->]]; [| discriminate].
  unfold bind at 1, file_WriteString.
  destruct (file_Write (File.mk "output.txt") (list_byte_of_string nl)
              (World.put text (World.put first (World.truncate w))))
    as [r3 w3] eqn:H3.
  destruct (file_Write_nil _ _ _ _ _ H3) as [[-> ->] | [err ->]]; [| discriminate].
  cbn [write_txids Z.eqb Z.add]. intros Hrun.
  apply write_txids_nil in Hrun; [| lia].
  exists coinbase, rest, text. split; [reflexivity | split; [exact Hjson |]].
  rewrite Hrun, !put_put. unfold report. rewrite Htxs. cbn [tl map List.concat].
  fold first. unfold line at 2. rewrite <- !app_assoc. reflexivity.
Qed.

(** What has been written stays at the head of the file. *)
Lemma put_begins_with (prefix b : list byte) (w : World.t) :
  begins_with prefix w -> begins_with prefix (World.put b w).
Proof.
  intros (rest & Hw). exists (rest ++ b).
  unfold World.put. cbn. rewrite Hw, app_assoc. reflexivity.
Qed.

Lemma file_Write_begins_with (prefix : list byte) (file : File.t) (b : list byte)
    (w : World.t) :
  begins_with prefix w -> begins_with prefix (snd (file_Write file b w)).
Proof.
  intros Hw. unfold file_Write.
  destruct (_ <=? _)%nat; cbn [snd]; apply put_begins_with; exact Hw.
Qed.

Lemma write_txids_begins_with (prefix : list byte) (file : File.t)
    (txs : list Transaction.t) :
  forall (i : Z) (w : World.t),
    begins_with prefix w -> begins_with prefix (snd (write_txids file i txs w)).
Proof.
  induction txs as [| tx txs IH]; intros i w Hw; [exact Hw |].
  cbn [write_txids]. destruct (i =? 0); [apply IH; exact Hw |].
  unfold bind at 1, index.
  destruct (nth_error (Transaction.Vin tx) 0) as [vin |]; cbn; [| exact Hw].
  pose proof (file_Write_begins_with prefix file
                (list_byte_of_string (TxInput.Txid vin ++ nl)) w Hw) as Hstep.
  unfold bind, file_WriteString.
  destruct (file_Write file (list_byte_of_string (TxInput.Txid vin ++ nl)) w)
    as [[[err |] | msg] w1]; cbn [snd] in *.
  - exact Hstep.
  - apply IH. exact Hstep.
  - exact Hstep.
Qed.

(** C10. The writer does not look at the digest it is handed. With the same
    block and the same world, any two digests give the same outcome and the
    same file; and once the device has created the file and taken the first
    line, the file begins with the digest of the header of the block in
    hexadecimal, whatever digest was handed in and however the run goes
    on. *)
Theorem WriteBlockToOutputFile_ignores_hash
    (block : Block.t) (hash1 hash2 : Array32.t) (w : World.t) :
  WriteBlockToOutputFile block hash1 w = WriteBlockToOutputFile block hash2 w
  /\ (World.CreateFault w = None ->
      (65 <= World.Room w)%nat ->
      begins_with
        (line (list_byte_of_string
                 (hex.EncodeToString
                    (Array32.bytes
                       (HashBlockHeader (SerializeBlockHeader (Block.Header block)))))))
        (snd (WriteBlockToOutputFile block hash1 w))).
Proof.
  split; [reflexivity |].
  intros Hcreate Hroom. fold (digest_text (Block.Header block)).
  set (prefix := line (list_byte_of_string (digest_text (Block.Header block)))).
  unfold WriteBlockToOutputFile.
  assert (Hc : os_Create "output.txt" w
               = (Returned (inl (File.mk "output.txt")), World.truncate w)).
  { unfold os_Create. rewrite Hcreate. reflexivity. }
  rewrite (bind_Returned _ _ _ _ _ Hc). cbv beta iota zeta.
  fold (HashBlockHeader (SerializeBlockHeader (Block.Header block))).
  fold (digest_text (Block.Header block)).
  erewrite bind_Returned
    by (apply file_WriteString_line; rewrite length_digest_line; exact Hroom).
  cbv beta iota. fold prefix.
  assert (H1 : begins_with prefix (World.put prefix (World.truncate w))).
  { exists []. rewrite app_nil_r. reflexivity. }
  clearbody prefix.
  revert H1. generalize (World.put prefix (World.truncate w)). intros w1 H1.
  unfold bind at 1, index.
  destruct (nth_error (Block.Transactions block) 0) as [tx0 |]; cbn; [| exact H1].
  destruct (json_Marshal tx0) as [text | err]; [| exact H1].
  pose proof (file_Write_begins_with prefix (File.mk "output.txt") text w1 H1) as H2.
  unfold bind at 1.
  destruct (file_Write (File.mk "output.txt") text w1) as [[[err |] | msg] w2];
    cbn [snd] in *; try exact H2.
  pose proof (file_Write_begins_with prefix (File.mk "output.txt")
                (list_byte_of_string nl) w2 H2) as H3.
  unfold bind at 1, file_WriteString.
  destruct (file_Write (File.mk "output.txt") (list_byte_of_string nl) w2)
    as [[[err |] | msg] w3]; cbn [snd] in *; try exact H3.
  apply write_txids_begins_with. exact H3.
Qed.

(** ** The first input of a transaction *)

Lemma has_input_index (tx : Transaction.t) (w : World.t) :
  has_input tx ->
  exists vin, index (Transaction.Vin tx) 0 w = (Returned vin, w).
Proof.
  unfold has_input, index. destruct (Transaction.Vin tx) as [| vin rest].
  - intros H. contradiction H. reflexivity.
  - intros _. exists vin. reflexivity.
Qed.

Lemma no_input_index (tx : Transaction.t) (w : World.t) :
  Transaction.Vin tx = [] ->
  index (Transaction.Vin tx) 0 w = (Panicked out_of_range, w).
Proof. intros H. rewrite H. reflexivity. Qed.

(** With an input in every transaction the validation loop returns, and
    returns the transactions the validator accepts, in order. *)
Lemma main_validate_returns (transactions : list Transaction.t) :
  Forall has_input transactions ->
  forall (validTransactions : list Transaction.t) (w : World.t),
  exists w',
    main_validate transactions validTransactions w
    = (Returned (validTransactions ++ filter ValidateTransaction transactions), w').
Proof.
  induction 1 as [| tx transactions Htx _ IH]; intros validTransactions w.
  - exists w. cbn. rewrite app_nil_r. reflexivity.
  - cbn [main_validate filter]. destruct (ValidateTransaction tx).
    + destruct (IH (validTransactions ++ [tx]) w) as (w' & Hw').
      exists w'. rewrite Hw', <- app_assoc. reflexivity.
    + destruct (has_input_index tx w Htx) as (vin & Hvin).
      rewrite (bind_Returned _ _ _ _ _ Hvin).
      erewrite bind_Returned by reflexivity.
      apply IH.
Qed.

Lemma file_Write_returns (file : File.t) (b : list byte) (w : World.t) :
  exists e w', file_Write file b w = (Returned e, w').
Proof.
  unfold file_Write. destruct (_ <=? _)%nat; eauto.
Qed.

(** With an input in every transaction the loop of the writer returns. *)
Lemma write_txids_returns (file : File.t) (txs : list Transaction.t) :
  Forall has_input txs ->
  forall (i : Z) (w : World.t),
  exists e w', write_txids file i txs w = (Returned e, w').
Proof.
  induction 1 as [| tx txs Htx _ IH]; intros i w.
  - exists None, w. reflexivity.
  - cbn [write_txids]. destruct (i =? 0); [apply IH |].
    destruct (has_input_index tx w Htx) as (vin & Hvin).
    rewrite (bind_Returned _ _ _ _ _ Hvin).
    destruct (file_Write_returns file
                (list_byte_of_string (TxInput.Txid vin ++ nl)) w) as (e & w1 & Hw).
    unfold file_WriteString. rewrite (bind_Returned _ _ _ _ _ Hw).
    destruct e as [err |]; [exists (Some err), w1; reflexivity | apply IH].
Qed.

(** A writer handed a block with a first transaction and an input in every
    later one returns. *)
Lemma WriteBlockToOutputFile_returns
    (block : Block.t) (hash : Array32.t) (w : World.t)
    (coinbase : Transaction.t) (rest : list Transaction.t) :
  Block.Transactions block = coinbase :: rest ->
  Forall has_input rest ->
  exists e w', WriteBlockToOutputFile block hash w = (Returned e, w').
Proof.
  intros Htxs Hrest. unfold WriteBlockToOutputFile, os_Create, bind at 1.
  destruct (World.CreateFault w) as [err |]; [eexists _, _; reflexivity |].
  cbv beta iota zeta.
  match goal with
  | |- context [file_WriteString ?f ?s] =>
      destruct (file_Write_returns f (list_byte_of_string s) (World.truncate w))
        as (e1 & w1 & H1)
  end.
  unfold file_WriteString at 1. rewrite (bind_Returned _ _ _ _ _ H1).
  destruct e1 as [err |]; [eexists _, _; reflexivity |].
  unfold index at 1. rewrite Htxs. cbn [nth_error].
  erewrite bind_Returned by reflexivity.
  destruct (json_Marshal coinbase) as [text | err]; [| eexists _, _; reflexivity].
  destruct (file_Write_returns (File.mk "output.txt") text w1) as (e2 & w2 & H2).
  rewrite (bind_Returned _ _ _ _ _ H2).
  destruct e2 as [err |]; [eexists _, _; reflexivity |].
  destruct (file_Write_returns (File.mk "output.txt") (list_byte_of_string nl) w2)
    as (e3 & w3 & H3).
  unfold file_WriteString at 1. rewrite (bind_Returned _ _ _ _ _ H3).
  destruct e3 as [err |]; [eexists _, _; reflexivity |].
  cbn [write_txids Z.eqb]. apply write_txids_returns. exact Hrest.
Qed.

Lemma Forall_filter {A : Type} (P : A -> Prop) (f : A -> bool) (l : list A) :
  Forall P l -> Forall P (filter f l).
Proof.
  induction 1 as [| x l Hx _ IH]; cbn; [constructor |].
  destruct (f x); [constructor; assumption | assumption].
Qed.

(** With an input in every loaded transaction, [main] returns. *)
Lemma main_returns (w : World.t) :
  Forall has_input (fst (LoadTransactionsFromFolder MempoolPath)) ->
  exists w', main w = (Returned tt, w').
Proof.
  unfold main.
  destruct (LoadTransactionsFromFolder MempoolPath) as [transactions [err |]];
    cbn [fst]; intros Hin.
  - eexists. reflexivity.
  - erewrite bind_Returned by reflexivity.
    match goal with
    | |- exists _, bind (main_validate _ _) _ ?w0 = _ =>
        destruct (main_validate_returns transactions Hin [] w0) as (w1 & H1)
    end.
    rewrite (bind_Returned _ _ _ _ _ H1). cbn [app].
    erewrite bind_Returned by reflexivity.
    erewrite bind_Returned by reflexivity.
    cbv zeta.
    match goal with
    | |- exists _, bind (WriteBlockToOutputFile ?b ?h) _ ?w2 = _ =>
        destruct (WriteBlockToOutputFile_returns b h w2
                    CreateCoinbaseTransaction (filter ValidateTransaction transactions)
                    (main_block_Transactions _ _)
                    (Forall_filter _ _ _ Hin)) as (e & w3 & H3)
    end.
    rewrite (bind_Returned _ _ _ _ _ H3).
    destruct e; eexists; reflexivity.
Qed.

(** C9. The first input of a transaction is read without a test where a
    refused transaction is reported and where the identifier line of a
    transaction after the first is written. When every transaction has an
    input, neither place panics: the validation loop returns the accepted
    transactions, the writer returns on the block built from them, and
    [main] returns. Without that, there is a transaction with no input on
    which the report of the refusal panics with an index out of range, and
    an accepted one with no input on which the writer does. *)
Theorem first_input_indexing :
  (forall transactions : list Transaction.t,
      Forall has_input transactions ->
      (forall w, exists w',
          main_validate transactions [] w
          = (Returned (filter ValidateTransaction transactions), w'))
      /\ (forall now hash w, exists e w',
            WriteBlockToOutputFile
              (main_block now (filter ValidateTransaction transactions)) hash w
            = (Returned e, w'))
      /\ (fst (LoadTransactionsFromFolder MempoolPath) = transactions ->
          forall w, exists w', main w = (Returned tt, w')))
  /\ (exists tx : Transaction.t,
        Transaction.Vin tx = []
        /\ (forall rest valid w,
              main_validate (tx :: rest) valid w = (Panicked out_of_range, w))
        /\ (forall rest w,
              LoadTransactionsFromFolder MempoolPath = (tx :: rest, None) ->
              fst (main w) = Panicked out_of_range))
  /\ (exists tx : Transaction.t,
        Transaction.Vin tx = []
        /\ ValidateTransaction tx = true
        /\ (forall now hash w text,
              World.CreateFault w = None ->
              json_Marshal CreateCoinbaseTransaction = inl text ->
              (List.length
                 (line (list_byte_of_string
                          (digest_text (Block.Header (main_block now [tx])))))
               + List.length (line text) <= World.Room w)%nat ->
              fst (WriteBlockToOutputFile (main_block now [tx]) hash w)
              = Panicked out_of_range)).
Proof.
  split; [| split].
  - intros transactions Hin. split; [| split].
    + intros w. apply (main_validate_returns transactions Hin [] w).
    + intros now hash w.
      apply (WriteBlockToOutputFile_returns _ hash w CreateCoinbaseTransaction
               (filter ValidateTransaction transactions)).
      * apply main_block_Transactions.
      * apply Forall_filter. exact Hin.
    + intros Hload w. apply main_returns. rewrite Hload. exact Hin.
  - exists Sample.tx_no_input. split; [reflexivity |]. split.
    + intros rest valid w. reflexivity.
    + intros rest w Hload. unfold main. rewrite Hload.
      erewrite bind_Returned by reflexivity.
      erewrite bind_Panicked by reflexivity.
      reflexivity.
  - exists Sample.tx_no_input_negative. split; [reflexivity |]. split; [reflexivity |].
    intros now hash w text Hcreate Hjson Hroom.
    rewrite (WriteBlockToOutputFile_head _ hash w CreateCoinbaseTransaction
               [Sample.tx_no_input_negative] text)
      by (assumption || apply main_block_Transactions).
    reflexivity.
Qed.

(** * Further properties *)

(** ** Names of records *)

Lemma length_append (s t : string) :
  String.length (s ++ t) = (String.length s + String.length t)%nat.
Proof.
  induction s as [| c s IH]; [reflexivity |]. cbn. f_equal. exact IH.
Qed.

Lemma substring_all (s : string) : substring 0 (String.length s) s = s.
Proof.
  induction s as [| c s IH]; [reflexivity |]. cbn. f_equal. exact IH.
Qed.

Lemma substring_after (p s : string) :
  substring (String.length p) (String.length s) (p ++ s) = s.
Proof.
  induction p as [| c p IH]; [apply substring_all |]. exact IH.
Qed.

Lemma substring_cut (n : nat) :
  forall s : string,
    (n <= String.length s)%nat ->
    (substring 0 n s ++ substring n (String.length s - n) s)%string = s.
Proof.
  induction n as [| n IH]; intros s Hn.
  - rewrite Nat.sub_0_r, substring_all. destruct s; reflexivity.
  - destruct s as [| c s]; [cbn in Hn; lia |].
    cbn in Hn. cbn. f_equal. apply IH. lia.
Qed.

(** [strings.HasSuffix] answers true exactly on the texts that end with the
    suffix. *)
Lemma HasSuffix_iff (s suffix : string) :
  HasSuffix s suffix = true <-> exists stem, s = (stem ++ suffix)%string.
Proof.
  unfold HasSuffix. rewrite andb_true_iff, Nat.leb_le, String.eqb_eq. split.
  - intros [Hlen Hsub].
    exists (substring 0 (String.length s - String.length suffix) s).
    pose proof (substring_cut (String.length s - String.length suffix) s
                  ltac:(lia)) as Hcut.
    replace (String.length s - (String.length s - String.length suffix))%nat
      with (String.length suffix) in Hcut by lia.
    rewrite Hsub in Hcut. symmetry. exact Hcut.
  - intros [stem ->]. rewrite length_append. split; [lia |].
    replace (String.length stem + String.length suffix - String.length suffix)%nat
      with (String.length stem) by lia.
    apply substring_after.
Qed.

(** X1. The loader takes an entry of the folder for a record exactly when
    it is not a directory and its name is some text followed by [.json];
    the empty text counts, so a file named [.json] is a record. *)
Theorem is_record_iff (file : FileInfo.t) :
  is_record file = true
  <-> FileInfo.IsDir file = false
      /\ exists stem, FileInfo.Name file = (stem ++ ".json")%string.
Proof.
  unfold is_record. rewrite andb_true_iff, negb_true_iff, HasSuffix_iff. reflexivity.
Qed.

(** ** More on the validator *)

Lemma sumZ_Permutation (l l' : list Z) : Permutation l l' -> sumZ l = sumZ l'.
Proof.
  induction 1 as [| x l l' _ IH | x y l | l l' l'' _ IH1 _ IH2]; cbn.
  - reflexivity.
  - unfold sumZ in IH. rewrite IH. reflexivity.
  - lia.
  - congruence.
Qed.

(** X2. The verdict of the validator does not depend on the order of the
    inputs nor on the order of the outputs, also when a running total
    wraps on the way. *)
Theorem ValidateTransaction_order (tx tx' : Transaction.t) :
  Permutation (Transaction.Vin tx) (Transaction.Vin tx') ->
  Permutation (Transaction.Vout tx) (Transaction.Vout tx') ->
  ValidateTransaction tx = ValidateTransaction tx'.
Proof.
  intros Hin Hout. rewrite !ValidateTransaction_totals.
  unfold input_total, output_total.
  rewrite (sumZ_Permutation _ _ (Permutation_map _ Hin)).
  rewrite (sumZ_Permutation _ _ (Permutation_map _ Hout)).
  reflexivity.
Qed.

(** X3. A transaction without inputs, whose outputs add up to a value an
    [int] holds, is accepted exactly when that total is negative: no sign
    test guards the values, and an output of negative value passes for a
    fee. *)
Theorem ValidateTransaction_no_input (tx : Transaction.t) :
  Transaction.Vin tx = [] ->
  is_int (output_total tx) ->
  (ValidateTransaction tx = true <-> output_total tx < 0).
Proof.
  intros Hvin Hout. rewrite ValidateTransaction_totals.
  unfold input_total. rewrite Hvin. cbn [map sumZ fold_right].
  rewrite (int_of_is_int _ Hout). change (int 0) with 0.
  rewrite Z.gtb_ltb, Z.ltb_lt. reflexivity.
Qed.

Lemma sumZ_bounds {A : Type} (f : A -> Z) (bound : Z) (l : list A) :
  Forall (fun x => 0 <= f x <= bound) l ->
  0 <= sumZ (map f l) <= bound * len l.
Proof.
  induction 1 as [| x l Hx _ IH].
  - cbn. unfold len. cbn. lia.
  - rewrite len_cons. change (sumZ (map f (x :: l))) with (f x + sumZ (map f l)). nia.
Qed.

(** X4. When no value of a transaction is negative, none exceeds [bound],
    and [bound] times the number of inputs, and times the number of
    outputs, fits an [int], no running total wraps and the validator accepts
    exactly the transactions whose inputs add up to more than their
    outputs. *)
Theorem ValidateTransaction_exact_within (bound : Z) (tx : Transaction.t) :
  Forall (fun vin => 0 <= Prevout.Value (TxInput.PrevOut vin) <= bound)
         (Transaction.Vin tx) ->
  Forall (fun vout => 0 <= TxOutput.Value vout <= bound) (Transaction.Vout tx) ->
  bound * len (Transaction.Vin tx) <= MaxInt ->
  bound * len (Transaction.Vout tx) <= MaxInt ->
  (ValidateTransaction tx = true <-> input_total tx > output_total tx).
Proof.
  intros Hin Hout Hnin Hnout.
  pose proof (sumZ_bounds (fun vin => Prevout.Value (TxInput.PrevOut vin)) bound _ Hin)
    as Hi.
  pose proof (sumZ_bounds TxOutput.Value bound _ Hout) as Ho.
  fold (input_total tx) in Hi. fold (output_total tx) in Ho.
  rewrite ValidateTransaction_totals.
  rewrite (int_of_is_int (input_total tx)), (int_of_is_int (output_total tx))
    by (unfold is_int, MinInt; lia).
  rewrite Z.gtb_ltb, Z.ltb_lt. lia.
Qed.

(** ** More on the assembled block *)

Lemma sumZ_Sizeof (l : list Transaction.t) : sumZ (map Sizeof l) = 56 * len l.
Proof.
  induction l as [| tx l IH]; [reflexivity |].
  rewrite len_cons. change (sumZ (map Sizeof (tx :: l))) with (56 + sumZ (map Sizeof l)).
  lia.
Qed.

Lemma Main2_main_block_Header (now : Z) (validTransactions : list Transaction.t) :
  Block.Header (Main2_main_block now validTransactions)
  = Block.Header (main_block now validTransactions).
Proof. reflexivity. Qed.

Lemma Main2_main_block_Transactions (now : Z) (validTransactions : list Transaction.t) :
  Block.Transactions (Main2_main_block now validTransactions)
  = Main2.CreateCoinbaseTransaction :: validTransactions.
Proof. reflexivity. Qed.

(** The running size over a coinbase transaction and the accepted ones. *)
Lemma blockSize_fold (now : Z) (coinbase : Transaction.t) (accepted : list Transaction.t) :
  fold_left (fun blockSize tx => uint64_add blockSize (uint64 (Sizeof tx)))
    (coinbase :: accepted)
    (uint64 (int_add
       (len (SerializeBlockHeader (Block.Header (main_block now accepted)))) 8))
  = uint64 (204 + 56 * len accepted).
Proof.
  rewrite fold_uint64_add, sumZ_Sizeof, len_cons.
  rewrite length_SerializeBlockHeader, main_block_Header.
  cbn [BlockHeader.DifficultyTarget].
  change (int_add (76 + len_string _) 8) with 148.
  f_equal. lia.
Qed.

(** X5. In both revisions the size [main] gives a block with [n] accepted
    transactions is [204 + 56 * n] on 64 bits: the 140 bytes of the header,
    8, and 56 for the coinbase transaction and for each accepted one. It
    depends on how many transactions there are, not on what they hold nor
    on the time. *)
Theorem main_block_Size_closed_form (now : Z) (accepted : list Transaction.t) :
  Block.Size (main_block now accepted) = uint64 (204 + 56 * len accepted)
  /\ Block.Size (Main2_main_block now accepted) = uint64 (204 + 56 * len accepted).
Proof.
  split.
  - apply (blockSize_fold now CreateCoinbaseTransaction).
  - apply (blockSize_fold now Main2.CreateCoinbaseTransaction).
Qed.

Lemma uint32_period (z k : Z) : uint32 (z + k * 2 ^ 32) = uint32 z.
Proof. unfold uint32, wrap_unsigned. apply Z_mod_plus_full. Qed.

(** X6. The header of the assembled block, and with it the digest that is
    written, holds nothing of the transactions, and of the clock only the
    seconds modulo [2 ^ 32]: blocks assembled from different transactions at
    times a multiple of [2 ^ 32] seconds apart have the same header and the
    same digest. *)
Theorem main_block_digest_blind (now k : Z) (accepted accepted' : list Transaction.t) :
  Block.Header (main_block (now + k * 2 ^ 32) accepted)
  = Block.Header (main_block now accepted')
  /\ HashBlockHeader
       (SerializeBlockHeader (Block.Header (main_block (now + k * 2 ^ 32) accepted)))
     = HashBlockHeader (SerializeBlockHeader (Block.Header (main_block now accepted'))).
Proof.
  assert (H : Block.Header (main_block (now + k * 2 ^ 32) accepted)
              = Block.Header (main_block now accepted')).
  { rewrite !main_block_Header, uint32_period. reflexivity. }
  split; [exact H | rewrite H; reflexivity].
Qed.

(** ** More on the header serializer *)

Lemma app_inj_length {A : Type} (l1 l2 r1 r2 : list A) :
  List.length l1 = List.length l2 ->
  l1 ++ r1 = l2 ++ r2 ->
  l1 = l2 /\ r1 = r2.
Proof.
  revert l2. induction l1 as [| x l1 IH]; intros [| y l2] Hlen Happ;
    try discriminate Hlen.
  - split; [reflexivity | exact Happ].
  - cbn in Hlen, Happ. injection Happ as -> Happ.
    destruct (IH l2 ltac:(lia) Happ) as [-> ->]. split; reflexivity.
Qed.

Lemma little_endian_4_inj (v v' : Z) :
  is_uint32 v -> is_uint32 v' -> little_endian 4 v = little_endian 4 v' -> v = v'.
Proof.
  unfold is_uint32. intros Hv Hv' Heq.
  apply (f_equal le_value) in Heq.
  rewrite !le_value_little_endian in Heq.
  change (256 ^ Z.of_nat 4) with (2 ^ 32) in Heq.
  rewrite !Z.mod_small in Heq by lia. exact Heq.
Qed.

Lemma Array32_eq (a b : Array32.t) : Array32.bytes a = Array32.bytes b -> a = b.
Proof.
  destruct a as [la Ha], b as [lb Hb]. cbn. intros ->.
  f_equal. apply UIP_dec. apply Nat.eq_dec.
Qed.

Lemma list_byte_of_string_inj (s t : string) :
  list_byte_of_string s = list_byte_of_string t -> s = t.
Proof.
  intros H. apply (f_equal string_of_list_byte) in H.
  rewrite !string_of_list_byte_of_string in H. exact H.
Qed.

(** X7. The serialized header determines the header: two headers whose
    version, timestamp and nonce are [uint32] values and whose
    serializations are equal are equal. The difficulty target has no length
    prefix, yet its length is what the total leaves once the fixed 76 bytes
    are taken away. *)
Theorem SerializeBlockHeader_injective (header header' : BlockHeader.t) :
  header_fits header ->
  header_fits header' ->
  SerializeBlockHeader header = SerializeBlockHeader header' ->
  header = header'.
Proof.
  intros (Hv & Ht & Hn) (Hv' & Ht' & Hn') Heq.
  pose proof (f_equal (@len byte) Heq) as Hlen.
  rewrite !length_SerializeBlockHeader in Hlen.
  unfold SerializeBlockHeader in Heq. cbn [app] in Heq.
  rewrite !serializeUint32_little_endian, <- !app_assoc in Heq.
  destruct header as [v p m t d n], header' as [v' p' m' t' d' n'].
  cbn [BlockHeader.Version BlockHeader.PreviousBlockHash BlockHeader.MerkleRoot
       BlockHeader.Timestamp BlockHeader.DifficultyTarget BlockHeader.Nonce] in *.
  apply app_inj_length in Heq; [| rewrite !length_little_endian; reflexivity].
  destruct Heq as [Hver Heq].
  apply app_inj_length in Heq; [| rewrite !Array32.bytes_length; reflexivity].
  destruct Heq as [Hprev Heq].
  apply app_inj_length in Heq; [| rewrite !Array32.bytes_length; reflexivity].
  destruct Heq as [Hmerkle Heq].
  apply app_inj_length in Heq; [| rewrite !length_little_endian; reflexivity].
  destruct Heq as [Htime Heq].
  apply app_inj_length in Heq;
    [| rewrite !length_list_byte_of_string; unfold len_string in Hlen; lia].
  destruct Heq as [Htarget Hnonce].
  apply little_endian_4_inj in Hver; [| assumption | assumption].
  apply little_endian_4_inj in Htime; [| assumption | assumption].
  apply little_endian_4_inj in Hnonce; [| assumption | assumption].
  apply Array32_eq in Hprev. apply Array32_eq in Hmerkle.
  apply list_byte_of_string_inj in Htarget.
  subst. reflexivity.
Qed.

(** ** More on the loader *)

(** The loop up to the first record that cannot be read. *)
Lemma load_files_unreadable (folderPath : string) (files : list FileInfo.t) :
  forall (transactions : list Transaction.t) good txs bad rest err,
    filter is_record files = good ++ bad :: rest ->
    Forall2 (decodes folderPath) good txs ->
    ioutil_ReadFile (folderPath ++ "/" ++ FileInfo.Name bad) = inr err ->
    load_files folderPath files transactions = ([], Some err).
Proof.
  induction files as [| file files IH];
    intros transactions good txs bad rest err Hsplit Hgood Hbad.
  - cbn in Hsplit. destruct good; discriminate.
  - cbn [filter] in Hsplit. cbn [load_files]. fold (is_record file).
    destruct (is_record file) eqn:Hrec.
    + destruct good as [| g good].
      * cbn in Hsplit. injection Hsplit as -> _. rewrite Hbad. reflexivity.
      * cbn in Hsplit. injection Hsplit as -> Hsplit.
        inversion Hgood as [| f tx fs txs' Hfile Hrest]; subst.
        destruct Hfile as (data & Hread & Hjson).
        rewrite Hread, Hjson.
        eapply IH; eassumption.
    + eapply IH; eassumption.
Qed.

(** X8. A record that cannot be read ends the load like a malformed one:
    when the records before it decode, the loader returns the error of the
    reader and no transaction. *)
Theorem LoadTransactionsFromFolder_unreadable
    (folderPath : string) (files good : list FileInfo.t) (txs : list Transaction.t)
    (bad : FileInfo.t) (rest : list FileInfo.t) (err : error) :
  ioutil_ReadDir folderPath = inl files ->
  filter is_record files = good ++ bad :: rest ->
  Forall2 (decodes folderPath) good txs ->
  ioutil_ReadFile (folderPath ++ "/" ++ FileInfo.Name bad) = inr err ->
  LoadTransactionsFromFolder folderPath = ([], Some err).
Proof.
  intros Hdir Hsplit Hgood Hbad. unfold LoadTransactionsFromFolder. rewrite Hdir.
  eapply load_files_unreadable; eassumption.
Qed.

(** What a result of the loop tells: without an error, the records decoded
    to what was appended; with one, nothing is returned and the error is
    that of the first record that failed. *)
Lemma load_files_inversion (folderPath : string) (files : list FileInfo.t) :
  forall (transactions result : list Transaction.t) (e : option error),
    load_files folderPath files transactions = (result, e) ->
    match e with
    | None =>
        exists txs,
          result = transactions ++ txs
          /\ Forall2 (decodes folderPath) (filter is_record files) txs
    | Some err =>
        result = []
        /\ exists good txs bad rest,
             filter is_record files = good ++ bad :: rest
             /\ Forall2 (decodes folderPath) good txs
             /\ (ioutil_ReadFile (folderPath ++ "/" ++ FileInfo.Name bad) = inr err
                 \/ malformed folderPath bad err)
    end.
Proof.
  induction files as [| file files IH]; intros transactions result e Hrun.
  - cbn in Hrun. injection Hrun as <- <-.
    exists []. rewrite app_nil_r. split; [reflexivity | constructor].
  - cbn [load_files] in Hrun. fold (is_record file) in Hrun. cbn [filter].
    destruct (is_record file) eqn:Hrec; [| apply IH; exact Hrun].
    destruct (ioutil_ReadFile (folderPath ++ "/" ++ FileInfo.Name file))
      as [data | err] eqn:Hread.
    + destruct (json_Unmarshal data (Transaction.mk 0 0 [] [])) as [tx [err |]] eqn:Hjson.
      * injection Hrun as <- <-. split; [reflexivity |].
        exists [], [], file, (filter is_record files).
        split; [reflexivity | split; [constructor |]].
        right. exists data, tx. split; assumption.
      * assert (Hfile : decodes folderPath file tx) by (exists data; split; assumption).
        apply IH in Hrun. destruct e as [err |].
        -- destruct Hrun as (-> & good & txs & bad & rest & Hsplit & Hgood & Hbad).
           split; [reflexivity |].
           exists (file :: good), (tx :: txs), bad, rest.
           split; [cbn; rewrite Hsplit; reflexivity |].
           split; [constructor; assumption | exact Hbad].
        -- destruct Hrun as (txs & -> & Htxs).
           exists (tx :: txs). rewrite <- app_assoc.
           split; [reflexivity | constructor; assumption].
    + injection Hrun as <- <-. split; [reflexivity |].
      exists [], [], file, (filter is_record files).
      split; [reflexivity | split; [constructor |]].
      left. exact Hread.
Qed.

(** X9. What the result of the loader tells about the folder. Without an
    error, the folder was listed and the transactions returned are the
    decoded records, one for one and in order. With an error, no
    transaction is returned, and the error is that of the listing, or that
    of the first record that could not be read or decoded, the records
    before it being well-formed. *)
Theorem LoadTransactionsFromFolder_inversion
    (folderPath : string) (result : list Transaction.t) (e : option error) :
  LoadTransactionsFromFolder folderPath = (result, e) ->
  match e with
  | None =>
      exists files,
        ioutil_ReadDir folderPath = inl files
        /\ Forall2 (decodes folderPath) (filter is_record files) result
  | Some err =>
      result = []
      /\ (ioutil_ReadDir folderPath = inr err
          \/ exists files good txs bad rest,
               ioutil_ReadDir folderPath = inl files
               /\ filter is_record files = good ++ bad :: rest
               /\ Forall2 (decodes folderPath) good txs
               /\ (ioutil_ReadFile (folderPath ++ "/" ++ FileInfo.Name bad) = inr err
                   \/ malformed folderPath bad err))
  end.
Proof.
  unfold LoadTransactionsFromFolder.
  destruct (ioutil_ReadDir folderPath) as [files | err0] eqn:Hdir; intros Hrun.
  - apply load_files_inversion in Hrun. destruct e as [err |].
    + destruct Hrun as (-> & good & txs & bad & rest & Hsplit & Hgood & Hbad).
      split; [reflexivity |]. right.
      exists files, good, txs, bad, rest. repeat split; assumption.
    + destruct Hrun as (txs & -> & Htxs). exists files. split; [reflexivity | exact Htxs].
  - injection Hrun as <- <-. split; [reflexivity |]. left. reflexivity.
Qed.

(** The loop does not see the entries that are not records. *)
Lemma load_files_records_only (folderPath : string) (files : list FileInfo.t) :
  forall transactions : list Transaction.t,
    load_files folderPath files transactions
    = load_files folderPath (filter is_record files) transactions.
Proof.
  induction files as [| file files IH]; intros transactions; [reflexivity |].
  cbn [filter]. destruct (is_record file) eqn:Hrec.
  - cbn [load_files]. fold (is_record file). rewrite Hrec.
    destruct (ioutil_ReadFile _) as [data | err]; [| reflexivity].
    destruct (json_Unmarshal _ _) as [tx [err |]]; [reflexivity | apply IH].
  - cbn [load_files]. fold (is_record file). rewrite Hrec. apply IH.
Qed.

(** ** More on the validation loop *)

Lemma append_nil_r (s : string) : (s ++ "")%string = s.
Proof. induction s as [| c s IH]; [reflexivity |]. cbn. f_equal. exact IH. Qed.

Lemma append_assoc (s t u : string) : ((s ++ t) ++ u)%string = (s ++ (t ++ u))%string.
Proof. induction s as [| c s IH]; [reflexivity |]. cbn. f_equal. exact IH. Qed.

Lemma print_nothing (w : World.t) : World.print "" w = w.
Proof. destruct w. unfold World.print. cbn. rewrite append_nil_r. reflexivity. Qed.

Lemma print_print (s t : string) (w : World.t) :
  World.print t (World.print s w) = World.print (s ++ t) w.
Proof. unfold World.print. cbn. rewrite append_assoc. reflexivity. Qed.

(** The validation loop when every refused transaction has an input. *)
Lemma main_validate_run (transactions : list Transaction.t) :
  Forall has_input (refused transactions) ->
  forall (validTransactions : list Transaction.t) (w : World.t),
    main_validate transactions validTransactions w
    = (Returned (validTransactions ++ filter ValidateTransaction transactions),
       World.print (refusals transactions) w).
Proof.
  induction transactions as [| tx transactions IH]; intros Hin validTransactions w.
  - cbn. rewrite app_nil_r, print_nothing. reflexivity.
  - unfold refusals, refused in *. cbn [main_validate filter] in *.
    destruct (ValidateTransaction tx); cbn [negb] in *.
    + rewrite (IH Hin), <- app_assoc. reflexivity.
    + inversion Hin as [| tx' l Htx Hrest]; subst.
      cbn [map fold_right]. unfold first_txid_text at 1.
      unfold has_input in Htx. unfold index.
      destruct (Transaction.Vin tx) as [| vin vins]; [contradiction Htx; reflexivity |].
      cbn [nth_error].
      erewrite bind_Returned by reflexivity.
      erewrite bind_Returned by reflexivity.
      rewrite (IH Hrest), print_print. reflexivity.
Qed.

(** X10. When every refused transaction has an input, the validation loop
    returns the accepted transactions in their order, after those it was
    handed, and has printed one line per refused transaction, in order,
    with the identifier its first input refers to; it changes nothing else
    of the world, the file least of all. Every transaction is either
    returned or reported: the two counts add up to the number handed in. An
    accepted transaction without input goes through. *)
Theorem main_validate_effect (transactions : list Transaction.t) :
  Forall has_input (refused transactions) ->
  forall (validTransactions : list Transaction.t) (w : World.t),
    main_validate transactions validTransactions w
    = (Returned (validTransactions ++ filter ValidateTransaction transactions),
       World.print (refusals transactions) w)
    /\ World.OutputTxt (snd (main_validate transactions validTransactions w))
       = World.OutputTxt w
    /\ len (filter ValidateTransaction transactions) + len (refused transactions)
       = len transactions.
Proof.
  intros Hin validTransactions w.
  pose proof (main_validate_run transactions Hin validTransactions w) as Hrun.
  split; [exact Hrun | split].
  - rewrite Hrun. reflexivity.
  - clear. unfold refused.
    induction transactions as [| tx transactions IH]; [reflexivity |].
    cbn [filter]. destruct (ValidateTransaction tx); cbn [negb];
      rewrite !len_cons; lia.
Qed.

(** X11. The validation loop panics exactly when some refused transaction
    has no input, and its panic is then that of an index out of range. *)
Theorem main_validate_panics_iff (transactions : list Transaction.t) :
  forall (validTransactions : list Transaction.t) (w : World.t),
    (forall msg w',
        main_validate transactions validTransactions w = (Panicked msg, w') ->
        msg = out_of_range
        /\ Exists (fun tx => Transaction.Vin tx = []) (refused transactions))
    /\ (Exists (fun tx => Transaction.Vin tx = []) (refused transactions) ->
        exists w',
          main_validate transactions validTransactions w = (Panicked out_of_range, w')).
Proof.
  induction transactions as [| tx transactions IH]; intros validTransactions w.
  - cbn. split.
    + intros msg w' H. discriminate H.
    + intros H. inversion H.
  - unfold refused in *. cbn [main_validate filter].
    destruct (ValidateTransaction tx); cbn [negb]; [apply IH |].
    unfold index. destruct (Transaction.Vin tx) as [| vin vins] eqn:Hvin.
    + cbn [nth_error]. split.
      * intros msg w' H. injection H as <- <-.
        split; [reflexivity | apply Exists_cons_hd; exact Hvin].
      * intros _. eexists. reflexivity.
    + cbn [nth_error].
      erewrite bind_Returned by reflexivity.
      erewrite bind_Returned by reflexivity.
      destruct (IH validTransactions
                  (World.print ("Invalid transaction " ++ TxInput.Txid vin ++ nl) w))
        as [IH1 IH2].
      split.
      * intros msg w' H. destruct (IH1 msg w' H) as [-> HE].
        split; [reflexivity | apply Exists_cons_tl; exact HE].
      * intros H. apply IH2.
        inversion H as [tx' l Hhd | tx' l Htl]; subst;
          [rewrite Hvin in Hhd; discriminate | exact Htl].
Qed.

(** ** More on the report writer *)

(** A writer that returns no error has met no fault up to its loop, and its
    loop has returned none. *)
Lemma WriteBlockToOutputFile_nil_head
    (block : Block.t) (hash : Array32.t) (w w' : World.t) :
  WriteBlockToOutputFile block hash w = (Returned None, w') ->
  exists coinbase rest text,
    Block.Transactions block = coinbase :: rest
    /\ json_Marshal coinbase = inl text
    /\ World.CreateFault w = None
    /\ write_txids (File.mk "output.txt") 1 rest
         (World.put (line (list_byte_of_string (digest_text (Block.Header block)))
                       ++ line text)
                    (World.truncate w))
       = (Returned None, w').
Proof.
  unfold WriteBlockToOutputFile, os_Create, bind at 1.
  destruct (World.CreateFault w) as [err |] eqn:Hcreate; [discriminate |].
  cbv beta iota zeta.
  fold (HashBlockHeader (SerializeBlockHeader (Block.Header block))).
  fold (digest_text (Block.Header block)).
  unfold file_WriteString at 1. rewrite list_byte_of_string_app.
  fold (line (list_byte_of_string (digest_text (Block.Header block)))).
  set (first := line (list_byte_of_string (digest_text (Block.Header block)))).
  clearbody first.
  unfold bind at 1.
  destruct (file_Write (File.mk "output.txt") first (World.truncate w)) as [r1 w1] eqn:H1.
  destruct (file_Write_nil _ _ _ _ _ H1) as [[-> ->] | [err ->]]; [| discriminate].
  unfold bind at 1, index.
  destruct (Block.Transactions block) as [| coinbase rest] eqn:Htxs; [discriminate |].
  cbn [nth_error]. unfold ret at 1.
  destruct (json_Marshal coinbase) as [text | err] eqn:Hjson; [| discriminate].
  unfold bind at 1.
  destruct (file_Write (File.mk "output.txt") text (World.put first (World.truncate w)))
    as [r2 w2] eqn:H2.
  destruct (file_Write_nil _ _ _ _ _ H2) as [[-> ->] | [err ->]]; [| discriminate].
  unfold bind at 1, file_WriteString.
  destruct (file_Write (File.mk "output.txt") (list_byte_of_string nl)
              (World.put text (World.put first (World.truncate w))))
    as [r3 w3] eqn:H3.
  destruct (file_Write_nil _ _ _ _ _ H3) as [[-> ->] | [err ->]]; [| discriminate].
  cbn [write_txids Z.eqb Z.add]. intros Hrun.
  exists coinbase, rest, text.
  split; [reflexivity | split; [exact Hjson | split; [reflexivity |]]].
  rewrite !put_put in Hrun. unfold line. rewrite <- ?app_assoc in Hrun. exact Hrun.
Qed.

Lemma write_txids_nil_inputs (file : File.t) (txs : list Transaction.t) :
  forall (i : Z) (w w' : World.t),
    0 < i ->
    write_txids file i txs w = (Returned None, w') ->
    Forall has_input txs.
Proof.
  induction txs as [| tx txs IH]; intros i w w' Hi Hrun; [constructor |].
  cbn [write_txids] in Hrun.
  destruct (Z.eqb_spec i 0) as [-> | _]; [lia |].
  unfold bind at 1 in Hrun. unfold index in Hrun.
  destruct (Transaction.Vin tx) as [| vin vins] eqn:Hvin; cbn in Hrun; [discriminate |].
  unfold bind, file_WriteString in Hrun.
  destruct (file_Write file (list_byte_of_string (TxInput.Txid vin ++ nl)) w)
    as [r w1] eqn:Hw.
  destruct (file_Write_nil _ _ _ _ _ Hw) as [[-> ->] | [err ->]]; [| discriminate].
  constructor.
  - unfold has_input. rewrite Hvin. discriminate.
  - eapply (IH (i + 1)); [lia | exact Hrun].
Qed.

(** X12. A writer that returns no error has left the whole report in the
    file: the block had a first transaction, which was rendered, every
    later transaction had an input, the device created the file, and the
    file holds the digest line, the line of the rendering and the
    identifier lines, and nothing else. *)
Theorem WriteBlockToOutputFile_nil_complete
    (block : Block.t) (hash : Array32.t) (w w' : World.t) :
  WriteBlockToOutputFile block hash w = (Returned None, w') ->
  exists coinbase rest text,
    Block.Transactions block = coinbase :: rest
    /\ json_Marshal coinbase = inl text
    /\ Forall has_input rest
    /\ World.CreateFault w = None
    /\ w' = World.put (report block text) (World.truncate w)
    /\ World.OutputTxt w' = Some (report block text).
Proof.
  intros Hrun.
  destruct (WriteBlockToOutputFile_nil_head block hash w w' Hrun)
    as (coinbase & rest & text & Htxs & Hjson & Hcreate & Hloop).
  exists coinbase, rest, text.
  assert (Hw' : w' = World.put (report block text) (World.truncate w)).
  { apply write_txids_nil in Hloop; [| lia].
    rewrite Hloop, put_put. unfold report. rewrite Htxs. cbn [tl map List.concat].
    rewrite <- app_assoc. reflexivity. }
  repeat (split; [first [assumption | reflexivity] |]).
  split; [| split; [exact Hcreate | split; [exact Hw' |]]].
  - apply (write_txids_nil_inputs _ _ 1 _ w' ltac:(lia) Hloop).
  - rewrite Hw'. reflexivity.
Qed.

(** A write adds to the file a beginning of its bytes, and all of them when
    it reports no error. *)
Lemma file_Write_partial (file : File.t) (b : list byte) (w : World.t) (c : list byte) :
  World.OutputTxt w = Some c ->
  exists r p q,
    file_Write file b w = (r, World.put p w)
    /\ p ++ q = b
    /\ World.OutputTxt (World.put p w) = Some (c ++ p)
    /\ (r = Returned None /\ q = [] \/ exists err, r = Returned (Some err)).
Proof.
  intros Hc. unfold file_Write. destruct (_ <=? _)%nat.
  - exists (Returned None), b, []. rewrite app_nil_r.
    split; [reflexivity | split; [reflexivity | split]].
    + unfold World.put. cbn. rewrite Hc. reflexivity.
    + left. split; reflexivity.
  - eexists _, (firstn (World.Room w) b), (skipn (World.Room w) b).
    split; [reflexivity | split; [apply firstn_skipn | split]].
    + unfold World.put. cbn. rewrite Hc. reflexivity.
    + right. eexists. reflexivity.
Qed.

(** However its loop ends, the writer has added a beginning of the
    identifier lines to the file. *)
Lemma write_txids_partial (file : File.t) (txs : list Transaction.t) :
  forall (i : Z) (w : World.t) (c : list byte),
    0 < i ->
    World.OutputTxt w = Some c ->
    exists p q,
      World.OutputTxt (snd (write_txids file i txs w)) = Some (c ++ p)
      /\ p ++ q = List.concat (map line (map first_txid txs)).
Proof.
  induction txs as [| tx txs IH]; intros i w c Hi Hc.
  - exists [], []. cbn. rewrite app_nil_r. split; [exact Hc | reflexivity].
  - cbn [write_txids map List.concat].
    destruct (Z.eqb_spec i 0) as [-> | _]; [lia |].
    unfold bind at 1, index, first_txid at 1.
    destruct (Transaction.Vin tx) as [| vin vins]; cbn [nth_error].
    + exists [], (line [] ++ List.concat (map line (map first_txid txs))).
      cbn [panic snd]. rewrite app_nil_r. split; [exact Hc | reflexivity].
    + unfold ret at 1. unfold bind at 1, file_WriteString.
      rewrite list_byte_of_string_app.
      fold (line (list_byte_of_string (TxInput.Txid vin))).
      destruct (file_Write_partial file (line (list_byte_of_string (TxInput.Txid vin)))
                  w c Hc) as (r & p & q & Hw & Hpq & Hout & Hr).
      rewrite Hw. destruct Hr as [[-> ->] | [err ->]].
      * rewrite app_nil_r in Hpq. subst p.
        destruct (IH (i + 1) _ _ ltac:(lia) Hout) as (p' & q' & Hout' & Hpq').
        exists (line (list_byte_of_string (TxInput.Txid vin)) ++ p'), q'.
        rewrite Hout', <- !app_assoc, Hpq'. split; reflexivity.
      * exists p, (q ++ List.concat (map line (map first_txid txs))).
        cbn [ret snd]. rewrite app_assoc, Hpq. split; [exact Hout | reflexivity].
Qed.

(** X13. A run of the writer that ends early, on an error of the device or
    on a panic, leaves a file cut short and never a wrong one: once the
    file is created, for a block whose first transaction is rendered as
    [text] the file holds a beginning of the report, however little room
    the device has and whether or not the transactions have inputs. *)
Theorem WriteBlockToOutputFile_partial
    (block : Block.t) (hash : Array32.t) (w : World.t)
    (coinbase : Transaction.t) (rest : list Transaction.t) (text : list byte) :
  Block.Transactions block = coinbase :: rest ->
  json_Marshal coinbase = inl text ->
  World.CreateFault w = None ->
  exists written missing,
    World.OutputTxt (snd (WriteBlockToOutputFile block hash w)) = Some written
    /\ written ++ missing = report block text.
Proof.
  intros Htxs Hjson Hcreate.
  unfold report. rewrite Htxs. cbn [tl map List.concat].
  set (first := line (list_byte_of_string (digest_text (Block.Header block)))).
  set (lines := List.concat (map line (map first_txid rest))).
  unfold WriteBlockToOutputFile, os_Create, bind at 1. rewrite Hcreate.
  cbv beta iota zeta.
  fold (HashBlockHeader (SerializeBlockHeader (Block.Header block))).
  fold (digest_text (Block.Header block)).
  unfold file_WriteString at 1. rewrite list_byte_of_string_app.
  fold (line (list_byte_of_string (digest_text (Block.Header block)))). fold first.
  clearbody first.
  assert (H0 : World.OutputTxt (World.truncate w) = Some []) by reflexivity.
  destruct (file_Write_partial (File.mk "output.txt") first _ _ H0)
    as (r1 & p1 & q1 & Hw1 & Hpq1 & Hout1 & Hr1).
  unfold bind at 1. rewrite Hw1. cbn [app] in Hout1.
  destruct Hr1 as [[-> ->] | [err ->]];
    [| exists p1, (q1 ++ line text ++ lines); cbn [ret snd];
       rewrite app_assoc, Hpq1; split; [exact Hout1 | reflexivity]].
  rewrite app_nil_r in Hpq1. subst p1.
  unfold bind at 1, index. rewrite Htxs. cbn [nth_error]. unfold ret at 1.
  rewrite Hjson.
  destruct (file_Write_partial (File.mk "output.txt") text _ _ Hout1)
    as (r2 & p2 & q2 & Hw2 & Hpq2 & Hout2 & Hr2).
  unfold bind at 1. rewrite Hw2.
  destruct Hr2 as [[-> ->] | [err ->]];
    [| exists (first ++ p2), (q2 ++ list_byte_of_string nl ++ lines); cbn [ret snd];
       unfold line; rewrite <- Hpq2, <- !app_assoc; split; [exact Hout2 | reflexivity]].
  rewrite app_nil_r in Hpq2. subst p2.
  destruct (file_Write_partial (File.mk "output.txt") (list_byte_of_string nl) _ _ Hout2)
    as (r3 & p3 & q3 & Hw3 & Hpq3 & Hout3 & Hr3).
  unfold bind at 1, file_WriteString. rewrite Hw3.
  destruct Hr3 as [[-> ->] | [err ->]];
    [| exists ((first ++ text) ++ p3), (q3 ++ lines); cbn [ret snd];
       unfold line; rewrite <- Hpq3, <- !app_assoc; split;
       [rewrite Hout3, <- !app_assoc; reflexivity | reflexivity]].
  rewrite app_nil_r in Hpq3. subst p3.
  cbn [write_txids Z.eqb Z.add].
  destruct (write_txids_partial (File.mk "output.txt") rest 1 _ _ ltac:(lia) Hout3)
    as (p & q & Hout & Hpq).
  exists (((first ++ text) ++ list_byte_of_string nl) ++ p), q.
  split; [exact Hout |]. fold lines in Hpq. rewrite <- Hpq.
  unfold line. rewrite <- !app_assoc. reflexivity.
Qed.

(** The loop through transactions that have an input, with room for their
    lines, goes on with the transactions after them. *)
Lemma write_txids_app (file : File.t) (txs more : list Transaction.t) :
  forall (i : Z) (w : World.t),
    0 < i ->
    Forall has_input txs ->
    (List.length (List.concat (map line (map first_txid txs))) <= World.Room w)%nat ->
    write_txids file i (txs ++ more) w
    = write_txids file (i + len txs) more
        (World.put (List.concat (map line (map first_txid txs))) w).
Proof.
  induction txs as [| tx txs IH]; intros i w Hi Hin Hfit.
  - cbn. rewrite put_nil. f_equal. unfold len. cbn. lia.
  - cbn [app write_txids].
    destruct (Z.eqb_spec i 0) as [-> | _]; [lia |].
    inversion Hin as [| tx' txs' Htx Htxs]; subst.
    destruct (first_txid_has_input tx Htx) as (vin & vins & Hvin & Hid).
    cbn [map List.concat] in *. rewrite length_app in Hfit.
    unfold index. rewrite Hvin. cbn [nth_error].
    rewrite (bind_Returned _ _ w w vin) by reflexivity.
    rewrite Hid in *.
    erewrite bind_Returned by (apply file_WriteString_line; lia).
    cbv beta iota.
    rewrite IH; [| lia | exact Htxs | rewrite Room_put; lia].
    rewrite put_put, len_cons. f_equal. lia.
Qed.

(** X14. Where the writer panics. When the transactions after the first are
    some that have an input, then one that has none, the device creates
    the file and has room for the lines up to there, the writer panics with
    an index out of range and leaves the digest line, the line of the first
    transaction and the identifier lines of the transactions before the one
    without input. *)
Theorem WriteBlockToOutputFile_panics_at
    (block : Block.t) (hash : Array32.t) (w : World.t)
    (coinbase : Transaction.t) (before : list Transaction.t) (tx : Transaction.t)
    (after : list Transaction.t) (text : list byte) :
  Block.Transactions block = coinbase :: before ++ tx :: after ->
  Forall has_input before ->
  Transaction.Vin tx = [] ->
  json_Marshal coinbase = inl text ->
  World.CreateFault w = None ->
  (List.length
     (line (list_byte_of_string (digest_text (Block.Header block)))
        ++ line text ++ List.concat (map line (map first_txid before)))
   <= World.Room w)%nat ->
  WriteBlockToOutputFile block hash w
  = (Panicked out_of_range,
     World.put
       (line (list_byte_of_string (digest_text (Block.Header block)))
          ++ line text ++ List.concat (map line (map first_txid before)))
       (World.truncate w)).
Proof.
  intros Htxs Hin Hvin Hjson Hcreate Hfit. rewrite !length_app in Hfit.
  rewrite (WriteBlockToOutputFile_head block hash w coinbase (before ++ tx :: after) text)
    by (assumption || lia).
  rewrite write_txids_app;
    [| lia | exact Hin
     | rewrite Room_put, length_app;
       change (World.Room (World.truncate w)) with (World.Room w); lia].
  cbn [write_txids].
  destruct (Z.eqb_spec (1 + len before) 0) as [H0 | _];
    [pose proof (len_nonneg before); lia |].
  unfold bind at 1, index. rewrite Hvin. cbn [nth_error].
  rewrite put_put, <- app_assoc. reflexivity.
Qed.

(** ** The whole run *)

(** The writer on a device that creates the file and has room. *)
Lemma WriteBlockToOutputFile_fits
    (block : Block.t) (hash : Array32.t) (w : World.t)
    (coinbase : Transaction.t) (rest : list Transaction.t) (text : list byte) :
  Block.Transactions block = coinbase :: rest ->
  Forall has_input rest ->
  json_Marshal coinbase = inl text ->
  World.CreateFault w = None ->
  (List.length (report block text) <= World.Room w)%nat ->
  WriteBlockToOutputFile block hash w
  = (Returned None, World.put (report block text) (World.truncate w)).
Proof.
  intros Htxs Hin Hjson Hcreate Hfit.
  unfold report in *. rewrite Htxs in *. cbn [tl map List.concat] in *.
  rewrite !length_app in Hfit.
  rewrite (WriteBlockToOutputFile_head block hash w coinbase rest text)
    by (assumption || lia).
  rewrite write_txids_lines.
  - rewrite put_put, <- app_assoc. reflexivity.
  - lia.
  - exact Hin.
  - rewrite Room_put, length_app.
    change (World.Room (World.truncate w)) with (World.Room w). lia.
Qed.

(** X15. A run that meets no fault. When the folder loads without error,
    every loaded transaction has an input, the coinbase transaction is
    rendered as [text] and the device creates the file and has room for the
    report, [main] returns; the file holds the digest line of the header
    made at the time of the clock, the line of the coinbase transaction
    and, in the order of the folder, one line for each transaction the
    validator accepts, and for no other; the console shows the two counts,
    between them one line per refused transaction, and the closing
    message. *)
Theorem main_report (w : World.t) (transactions : list Transaction.t) (text : list byte) :
  LoadTransactionsFromFolder MempoolPath = (transactions, None) ->
  Forall has_input transactions ->
  json_Marshal CreateCoinbaseTransaction = inl text ->
  World.CreateFault w = None ->
  (List.length
     (report (main_block (World.Clock w) (filter ValidateTransaction transactions)) text)
   <= World.Room w)%nat ->
  exists w',
    main w = (Returned tt, w')
    /\ World.OutputTxt w'
       = Some (line (list_byte_of_string
                       (digest_text
                          (Block.Header
                             (main_block (World.Clock w)
                                (filter ValidateTransaction transactions)))))
                 ++ line text
                 ++ List.concat
                      (map line (map first_txid (filter ValidateTransaction transactions))))
    /\ World.Console w'
       = (World.Console w
            ++ (String.concat " " ["Number of transactions in mempool:";
                                   itoa (len transactions)] ++ nl)
            ++ refusals transactions
            ++ (String.concat " " ["Number of valid transactions:";
                                   itoa (len (filter ValidateTransaction transactions))]
                  ++ nl)
            ++ ("Block data written to output.txt" ++ nl))%string.
Proof.
  intros Hload Hin Hjson Hcreate Hfit.
  set (accepted := filter ValidateTransaction transactions) in *.
  unfold main. rewrite Hload.
  erewrite bind_Returned by reflexivity.
  rewrite (bind_Returned _ _ _ _ _
             (main_validate_run transactions (Forall_filter _ _ _ Hin) [] _)).
  cbn [app]. fold accepted.
  erewrite bind_Returned by reflexivity.
  erewrite bind_Returned by reflexivity.
  cbv zeta. cbn [World.Clock World.print].
  erewrite bind_Returned
    by (apply (WriteBlockToOutputFile_fits _ _ _ CreateCoinbaseTransaction accepted text);
        [apply main_block_Transactions | apply Forall_filter; exact Hin
         | exact Hjson | exact Hcreate | exact Hfit]).
  eexists. split; [reflexivity | split].
  - unfold report. rewrite main_block_Transactions. reflexivity.
  - unfold fmt_Println, World.print, World.put, World.truncate.
    cbn [snd World.Console]. rewrite !append_assoc. reflexivity.
Qed.

(** X16. A run on a folder with a bad record. When the records before it
    decode and one record cannot be read or is malformed, [main] prints the
    error after the words [Error loading transactions:], returns, and
    leaves the file as it was: the writer is not reached. *)
Theorem main_bad_record
    (w : World.t) (files good : list FileInfo.t) (txs : list Transaction.t)
    (bad : FileInfo.t) (rest : list FileInfo.t) (err : error) :
  ioutil_ReadDir MempoolPath = inl files ->
  filter is_record files = good ++ bad :: rest ->
  Forall2 (decodes MempoolPath) good txs ->
  ioutil_ReadFile (MempoolPath ++ "/" ++ FileInfo.Name bad) = inr err
  \/ malformed MempoolPath bad err ->
  main w
  = (Returned tt,
     World.print (String.concat " " ["Error loading transactions:"%string; err] ++ nl) w)
  /\ World.OutputTxt (snd (main w)) = World.OutputTxt w.
Proof.
  intros Hdir Hsplit Hgood Hbad.
  assert (Hload : LoadTransactionsFromFolder MempoolPath = ([], Some err)).
  { unfold LoadTransactionsFromFolder. rewrite Hdir. destruct Hbad as [Hbad | Hbad].
    - eapply load_files_unreadable; eassumption.
    - eapply load_files_malformed; eassumption. }
  unfold main. rewrite Hload. split; reflexivity.
Qed.

(** X17. A run on a device that refuses the file. When the folder loads
    without error and every refused transaction has an input, [main]
    prints the error of the device after the words [Error writing block to
    output file:], returns, and leaves the file as it was. *)
Theorem main_cannot_create
    (w : World.t) (transactions : list Transaction.t) (err : error) :
  LoadTransactionsFromFolder MempoolPath = (transactions, None) ->
  Forall has_input (refused transactions) ->
  World.CreateFault w = Some err ->
  exists w',
    main w = (Returned tt, w')
    /\ World.OutputTxt w' = World.OutputTxt w
    /\ World.Console w'
       = (World.Console w
            ++ (String.concat " " ["Number of transactions in mempool:";
                                   itoa (len transactions)] ++ nl)
            ++ refusals transactions
            ++ (String.concat " " ["Number of valid transactions:";
                                   itoa (len (filter ValidateTransaction transactions))]
                  ++ nl)
            ++ (String.concat " " ["Error writing block to output file:"; err] ++ nl))%string.
Proof.
  intros Hload Hin Hcreate.
  unfold main. rewrite Hload.
  erewrite bind_Returned by reflexivity.
  rewrite (bind_Returned _ _ _ _ _ (main_validate_run transactions Hin [] _)).
  cbn [app].
  erewrite bind_Returned by reflexivity.
  erewrite bind_Returned by reflexivity.
  cbv zeta.
  erewrite bind_Returned
    by (unfold WriteBlockToOutputFile, os_Create, bind at 1;
        cbn [World.CreateFault World.print]; rewrite Hcreate; reflexivity).
  eexists. split; [reflexivity | split].
  - reflexivity.
  - unfold fmt_Println, World.print. cbn [snd World.Console].
    rewrite !append_assoc. reflexivity.
Qed.

(** ** The earlier revision *)

(** Past index 0 the loop of the canonical writer is the loop of the earlier
    one. *)
Lemma write_txids_Main2 (file : File.t) (txs : list Transaction.t) :
  forall (i : Z) (w : World.t),
    0 < i -> write_txids file i txs w = Main2_write_txids file txs w.
Proof.
  induction txs as [| tx txs IH]; intros i w Hi; [reflexivity |].
  cbn [write_txids Main2_write_txids].
  destruct (Z.eqb_spec i 0) as [-> | _]; [lia |].
  unfold bind at 1 3. destruct (index (Transaction.Vin tx) 0 w) as [[vin | msg] w1];
    [| reflexivity].
  unfold bind. destruct (file_WriteString file (TxInput.Txid vin ++ nl) w1)
    as [[[err |] | msg] w2]; try reflexivity.
  apply IH. lia.
Qed.

Lemma binary_Write_uint64_fits (file : File.t) (data : Z) (w : World.t) :
  (8 <= World.Room w)%nat ->
  binary_Write_uint64 file data w = (Returned None, World.put (little_endian 8 data) w).
Proof.
  intros Hfit. unfold binary_Write_uint64. apply file_Write_fits.
  rewrite length_little_endian. exact Hfit.
Qed.

(** The writer of the earlier revision on a device that creates the file
    and has room. *)
Lemma Main2_WriteBlockToOutputFile_fits (block : Block.t) (w : World.t) :
  Forall has_input (Block.Transactions block) ->
  World.CreateFault w = None ->
  (List.length (Main2_report block) <= World.Room w)%nat ->
  Main2_WriteBlockToOutputFile block w
  = (Returned None, World.put (Main2_report block) (World.truncate w)).
Proof.
  intros Hin Hcreate Hfit.
  unfold Main2_report in *. rewrite !length_app, !length_little_endian in Hfit.
  unfold Main2_WriteBlockToOutputFile.
  assert (Hc : os_Create "output.txt" w
               = (Returned (inl (File.mk "output.txt")), World.truncate w)).
  { unfold os_Create. rewrite Hcreate. reflexivity. }
  rewrite (bind_Returned _ _ _ _ _ Hc). cbv beta iota zeta.
  erewrite bind_Returned
    by (apply binary_Write_uint64_fits;
        change (World.Room (World.truncate w)) with (World.Room w); lia).
  cbv beta iota.
  erewrite bind_Returned
    by (apply file_Write_fits; rewrite Room_put, length_little_endian;
        change (World.Room (World.truncate w)) with (World.Room w); lia).
  cbv beta iota.
  erewrite bind_Returned
    by (apply binary_Write_uint64_fits;
        rewrite !Room_put, length_little_endian;
        change (World.Room (World.truncate w)) with (World.Room w); lia).
  cbv beta iota.
  rewrite <- (write_txids_Main2 _ _ 1) by lia.
  rewrite write_txids_lines.
  - rewrite !put_put, <- ?app_assoc. reflexivity.
  - lia.
  - exact Hin.
  - rewrite !Room_put, !length_little_endian.
    change (World.Room (World.truncate w)) with (World.Room w). lia.
Qed.

(** X18. The file of the earlier revision. For a block whose transactions
    all have an input, the first one as well, on a device that creates the
    file and has room, the writer of [main2.go] returns no error and leaves
    in the fresh file the size on eight bytes, the serialized header, the
    transaction counter on eight bytes, and one identifier line per
    transaction, the first one included; the two numbers read back
    little-endian as the [uint64] values. *)
Theorem Main2_WriteBlockToOutputFile_layout (block : Block.t) (w : World.t) :
  Forall has_input (Block.Transactions block) ->
  World.CreateFault w = None ->
  (List.length (Main2_report block) <= World.Room w)%nat ->
  Main2_WriteBlockToOutputFile block w
  = (Returned None, World.put (Main2_report block) (World.truncate w))
  /\ World.OutputTxt (World.put (Main2_report block) (World.truncate w))
     = Some (Main2_report block)
  /\ le_value (firstn 8 (Main2_report block)) = uint64 (Block.Size block)
  /\ le_value (firstn 8 (skipn (8 + List.length (SerializeBlockHeader (Block.Header block)))
                               (Main2_report block)))
     = uint64 (Block.TransactionCount block).
Proof.
  intros Hin Hcreate Hfit.
  split; [| split; [reflexivity | split]].
  - apply Main2_WriteBlockToOutputFile_fits; assumption.
  - unfold Main2_report.
    rewrite firstn_app, length_little_endian, Nat.sub_diag, firstn_O, app_nil_r.
    rewrite firstn_all2 by (rewrite length_little_endian; lia).
    apply le_value_little_endian.
  - unfold Main2_report.
    rewrite app_assoc, skipn_app.
    rewrite length_app, length_little_endian, Nat.sub_diag. cbn [skipn].
    rewrite skipn_all2 by (rewrite length_app, length_little_endian; lia).
    cbn [app].
    rewrite firstn_app, length_little_endian, Nat.sub_diag, firstn_O, app_nil_r.
    rewrite firstn_all2 by (rewrite length_little_endian; lia).
    apply le_value_little_endian.
Qed.

(** The validation loop of the earlier revision. *)
Lemma Main2_main_validate_effect (transactions : list Transaction.t) :
  Forall has_input (refused transactions) ->
  forall (validTransactions : list Transaction.t) (w : World.t),
    Main2_main_validate transactions validTransactions w
    = (Returned (validTransactions ++ filter ValidateTransaction transactions),
       World.print (Main2_refusals transactions) w).
Proof.
  induction transactions as [| tx transactions IH]; intros Hin validTransactions w.
  - cbn. rewrite app_nil_r, print_nothing. reflexivity.
  - unfold Main2_refusals, refused in *. cbn [Main2_main_validate filter] in *.
    destruct (ValidateTransaction tx); cbn [negb Bool.eqb fmt_bool] in *.
    + rewrite (IH Hin), <- app_assoc. reflexivity.
    + inversion Hin as [| tx' l Htx Hrest]; subst.
      cbn [map fold_right]. unfold first_txid_text at 1.
      unfold has_input in Htx. unfold index.
      destruct (Transaction.Vin tx) as [| vin vins]; [contradiction Htx; reflexivity |].
      cbn [nth_error].
      erewrite bind_Returned by reflexivity.
      erewrite bind_Returned by reflexivity.
      rewrite (IH Hrest), print_print. reflexivity.
Qed.

(** X19. A run of the earlier revision that meets no fault. When the
    folder loads without error, every loaded transaction has an input and
    the size fits a [uint64] and the device creates the file and has room,
    [main] of [main2.go] returns, also when no transaction is accepted; the
    file holds the size
    [204 + 56 * n] for [n] accepted transactions, the serialized header,
    the counter [1 + n], the line of 64 zeros of the coinbase transaction
    and one line per accepted transaction; the console shows the size 56 of
    a transaction among its lines. *)
Theorem Main2_main_report (w : World.t) (transactions : list Transaction.t) :
  LoadTransactionsFromFolder MempoolPath = (transactions, None) ->
  Forall has_input transactions ->
  World.CreateFault w = None ->
  204 + 56 * len (filter ValidateTransaction transactions) <= MaxUint64 ->
  (List.length
     (Main2_report
        (Main2_main_block (World.Clock w) (filter ValidateTransaction transactions)))
   <= World.Room w)%nat ->
  exists w',
    Main2_main w = (Returned tt, w')
    /\ World.OutputTxt w'
       = Some (little_endian 8
                 (204 + 56 * len (filter ValidateTransaction transactions))
                 ++ SerializeBlockHeader
                      (Block.Header
                         (main_block (World.Clock w)
                            (filter ValidateTransaction transactions)))
                 ++ little_endian 8 (1 + len (filter ValidateTransaction transactions))
                 ++ line (list_byte_of_string
                            "0000000000000000000000000000000000000000000000000000000000000000")
                 ++ List.concat
                      (map line (map first_txid (filter ValidateTransaction transactions))))
    /\ World.Console w'
       = (World.Console w
            ++ (String.concat " " ["Number of transactions in mempool:";
                                   itoa (len transactions)] ++ nl)
            ++ Main2_refusals transactions
            ++ (String.concat " " ["Number of valid transactions:";
                                   itoa (len (filter ValidateTransaction transactions))]
                  ++ nl)
            ++ ("Size of first valid transaction: 56" ++ nl)
            ++ ("Block data written to output.txt" ++ nl))%string.
Proof.
  intros Hload Hin Hcreate Hlen Hfit.
  set (accepted := filter ValidateTransaction transactions) in *.
  assert (Hreport :
            Main2_report (Main2_main_block (World.Clock w) accepted)
            = little_endian 8 (204 + 56 * len accepted)
                ++ SerializeBlockHeader (Block.Header (main_block (World.Clock w) accepted))
                ++ little_endian 8 (1 + len accepted)
                ++ line (list_byte_of_string
                           "0000000000000000000000000000000000000000000000000000000000000000")
                ++ List.concat (map line (map first_txid accepted))).
  { unfold Main2_report.
    change (Block.Size (Main2_main_block (World.Clock w) accepted))
      with (fold_left (fun blockSize tx => uint64_add blockSize (uint64 (Sizeof tx)))
              (Main2.CreateCoinbaseTransaction :: accepted)
              (uint64 (int_add
                 (len (SerializeBlockHeader
                         (Block.Header (main_block (World.Clock w) accepted)))) 8))).
    rewrite blockSize_fold.
    rewrite Main2_main_block_Header, Main2_main_block_Transactions.
    change (Block.TransactionCount (Main2_main_block (World.Clock w) accepted))
      with (uint64 (len (Main2.CreateCoinbaseTransaction :: accepted))).
    pose proof (len_nonneg accepted) as Hn.
    rewrite !uint64_small, len_cons
      by (rewrite ?len_cons; unfold MaxUint64 in *; lia).
    reflexivity. }
  unfold Main2_main. rewrite Hload.
  erewrite bind_Returned by reflexivity.
  rewrite (bind_Returned _ _ _ _ _
             (Main2_main_validate_effect transactions (Forall_filter _ _ _ Hin) [] _)).
  cbn [app]. fold accepted.
  erewrite bind_Returned by reflexivity.
  erewrite bind_Returned by reflexivity.
  erewrite bind_Returned by reflexivity.
  cbv zeta. cbn [World.Clock World.print].
  assert (Hall : Forall has_input
                   (Block.Transactions (Main2_main_block (World.Clock w) accepted))).
  { rewrite Main2_main_block_Transactions. constructor.
    - unfold has_input. discriminate.
    - apply Forall_filter. exact Hin. }
  erewrite bind_Returned
    by (apply Main2_WriteBlockToOutputFile_fits; [exact Hall | exact Hcreate | exact Hfit]).
  eexists. split; [reflexivity | split].
  - rewrite <- Hreport. reflexivity.
  - unfold fmt_Println, World.print, World.put, World.truncate.
    cbn [snd World.Console]. rewrite !append_assoc. reflexivity.
Qed.

(** The validation loop that meets a refused transaction without input
    panics, having printed and done nothing else. *)
Lemma main_validate_panic_run (transactions : list Transaction.t) :
  Exists (fun tx => Transaction.Vin tx = []) (refused transactions) ->
  forall (validTransactions : list Transaction.t) (w : World.t),
  exists printed,
    main_validate transactions validTransactions w
    = (Panicked out_of_range, World.print printed w).
Proof.
  induction transactions as [| tx transactions IH]; intros HE validTransactions w.
  - inversion HE.
  - unfold refused in *. cbn [main_validate filter] in *.
    destruct (ValidateTransaction tx); cbn [negb] in *; [apply IH; exact HE |].
    unfold index. destruct (Transaction.Vin tx) as [| vin vins] eqn:Hvin.
    + exists EmptyString. rewrite print_nothing. reflexivity.
    + cbn [nth_error].
      erewrite bind_Returned by reflexivity.
      erewrite bind_Returned by reflexivity.
      assert (HE' : Exists (fun tx => Transaction.Vin tx = [])
                      (filter (fun tx => negb (ValidateTransaction tx)) transactions)).
      { inversion HE as [tx' l Hhd | tx' l Htl]; subst;
          [rewrite Hvin in Hhd; discriminate | exact Htl]. }
      destruct (IH HE' validTransactions
                  (World.print ("Invalid transaction " ++ TxInput.Txid vin ++ nl) w))
        as (printed & Hrun).
      eexists. rewrite Hrun, print_print. reflexivity.
Qed.

(** X20. A run that panics. When the folder loads without error and some
    refused transaction has no input, [main] panics with an index out of
    range while it reports the refusals: the writer is not reached and the
    file is left as it was. *)
Theorem main_panics_before_file (w : World.t) (transactions : list Transaction.t) :
  LoadTransactionsFromFolder MempoolPath = (transactions, None) ->
  Exists (fun tx => Transaction.Vin tx = []) (refused transactions) ->
  exists w',
    main w = (Panicked out_of_range, w')
    /\ World.OutputTxt w' = World.OutputTxt w
    /\ World.Room w' = World.Room w.
Proof.
  intros Hload HE. unfold main. rewrite Hload.
  erewrite bind_Returned by reflexivity.
  match goal with
  | |- exists _, bind (main_validate _ _) _ ?w0 = _ /\ _ =>
      destruct (main_validate_panic_run transactions HE [] w0) as (printed & Hrun)
  end.
  rewrite (bind_Panicked _ _ _ _ _ Hrun).
  eexists. split; [reflexivity | split; reflexivity].
Qed.

End Pipeline.

(** X21. The loader does not see what is not a record: two listings of a
    folder that agree on the files named like a record, whatever
    directories and other files each has besides, load to the same
    result. *)
Theorem LoadTransactionsFromFolder_records_only
    (ioutil_ReadDir ioutil_ReadDir' : string -> list FileInfo.t + error)
    (ioutil_ReadFile : string -> list byte + error)
    (json_Unmarshal : list byte -> Transaction.t -> Transaction.t * option error)
    (folderPath : string) (files files' : list FileInfo.t) :
  ioutil_ReadDir folderPath = inl files ->
  ioutil_ReadDir' folderPath = inl files' ->
  filter is_record files = filter is_record files' ->
  LoadTransactionsFromFolder ioutil_ReadDir ioutil_ReadFile json_Unmarshal folderPath
  = LoadTransactionsFromFolder ioutil_ReadDir' ioutil_ReadFile json_Unmarshal folderPath.
Proof.
  intros Hdir Hdir' Hrecords. unfold LoadTransactionsFromFolder. rewrite Hdir, Hdir'.
  rewrite (load_files_records_only _ _ folderPath files).
  rewrite (load_files_records_only _ _ folderPath files').
  rewrite Hrecords. reflexivity.
Qed.

(** * Examples *)

(** ** The digest on known inputs *)

Example sha256_constants :
  hd 0 sha256.K = 0x428a2f98 /\ last sha256.K 0 = 0xc67178f2
  /\ List.length sha256.K = 64%nat
  /\ sha256.h0 sha256.init = 0x6a09e667 /\ sha256.h7 sha256.init = 0x5be0cd19.
Proof. vm_compute. repeat split. Qed.

Example Sum256_of_nothing :
  hex.EncodeToString (Array32.bytes (sha256.Sum256 []))
  = "e3b0c44298fc1c149afbf4c8996fb92427ae41e4649b934ca495991b7852b855"%string.
Proof. vm_compute. reflexivity. Qed.

Example Sum256_of_abc :
  hex.EncodeToString (Array32.bytes (sha256.Sum256 (list_byte_of_string "abc")))
  = "ba7816bf8f01cfea414140de5dae2223b00361a396177a9cb410ff61f20015ad"%string.
Proof. vm_compute. reflexivity. Qed.

Example Sum256_of_two_blocks :
  hex.EncodeToString
    (Array32.bytes
       (sha256.Sum256
          (list_byte_of_string "abcdbcdecdefdefgefghfghighijhijkijkljklmklmnlmnomnopnopq")))
  = "248d6a61d20638b8e5c026930c3e6039a33ce45964ff2167f6ecedd419db06c1"%string.
Proof. vm_compute. reflexivity. Qed.

Example HashBlockHeader_of_hello :
  hex.EncodeToString (Array32.bytes (HashBlockHeader (list_byte_of_string "hello")))
  = "9595c9df90075148eb06860365df33584b75bff782a510c6cd4883a419833d50"%string.
Proof. vm_compute. reflexivity. Qed.

(** The second round reads the 32 bytes of the first digest, not the 64
    characters of its hexadecimal text. *)
Example HashBlockHeader_not_of_text :
  Array32.bytes (HashBlockHeader (list_byte_of_string "hello"))
  <> Array32.bytes
       (sha256.Sum256
          (list_byte_of_string
             (hex.EncodeToString
                (Array32.bytes (sha256.Sum256 (list_byte_of_string "hello")))))).
Proof. vm_compute. discriminate. Qed.

(** ** Runs of the pipeline *)

(** The coinbase line of the sample rendering. *)
Example coinbase_rendering :
  Sample.render_Transaction CreateCoinbaseTransaction
  = String.concat (String "034"%char EmptyString)
      [ "{"; "version"; ":1,"; "locktime"; ":0,"; "vin"; ":[{"; "txid"; ":"; ""; ",";
        "vout"; ":-1,"; "scriptsig"; ":"; ""; ","; "witness"; ":null,"; "is_coinbase";
        ":true,"; "sequence"; ":4294967295,"; "prevout"; ":{"; "scriptpubkey"; ":"; "";
        ","; "scriptpubkey_asm"; ":"; ""; ","; "scriptpubkey_type"; ":"; ""; ",";
        "scriptpubkey_address"; ":"; ""; ","; "value"; ":0}}],"; "vout"; ":[{";
        "scriptpubkey"; ":"; ""; ","; "scriptpubkey_asm"; ":"; ""; ",";
        "scriptpubkey_type"; ":"; ""; ","; "scriptpubkey_address"; ":"; ""; ",";
        "value"; ":0}]}" ]%string.
Proof. vm_compute. reflexivity. Qed.

(** Of the sample entries, the loader reads the two files named like a
    record, and neither the text file nor the directory. *)
Example records_of_the_samples :
  filter is_record Sample.files
  = [FileInfo.mk "a.json" false; FileInfo.mk "b.json" false].
Proof. reflexivity. Qed.

(** The validator on the samples: a fee of 1000, a fee of 0, a wrapped
    total, no input against 1, no input against -1. *)
Example validator_on_the_samples :
  map ValidateTransaction
      [ Sample.tx_paying; Sample.tx_even; Sample.tx_wrapping; Sample.tx_no_input;
        Sample.tx_no_input_negative ]
  = [true; false; false; false; true].
Proof. reflexivity. Qed.

(** The sample folder: one record pays a fee and is written, the other has
    equal totals and is reported. *)
Example run_on_samples :
  let (r, w) :=
    main Sample.ReadDir Sample.ReadFile Sample.Unmarshal Sample.Marshal (Sample.world 1000) in
  r = Returned tt
  /\ World.Console w
     = String.concat nl
         [ "Number of transactions in mempool: 2"; "Invalid transaction cc33";
           "Number of valid transactions: 1"; "Block data written to output.txt";
           "" ]%string
  /\ World.OutputTxt w
     = Some (list_byte_of_string
               (String.concat nl
                  [ "5c9fc020cc679fe9814386abb9165601dc78a2ec4436dd13d6595533851a4a5d";
                    Sample.render_Transaction CreateCoinbaseTransaction;
                    "aa11"; "" ]%string)).
Proof. vm_compute. repeat split. Qed.

(** An empty folder: the digest line and the coinbase line only. *)
Example run_on_empty_folder :
  let (r, w) :=
    main (fun _ => inl []) Sample.ReadFile Sample.Unmarshal Sample.Marshal
         (Sample.world 1000) in
  r = Returned tt
  /\ World.OutputTxt w
     = Some (list_byte_of_string
               (String.concat nl
                  [ "5c9fc020cc679fe9814386abb9165601dc78a2ec4436dd13d6595533851a4a5d";
                    Sample.render_Transaction CreateCoinbaseTransaction; "" ]%string)).
Proof. vm_compute. repeat split. Qed.

(** A malformed record: the run ends before the file is touched. *)
Example run_on_broken_folder :
  let (r, w) :=
    main (fun _ => Sample.ReadDir "broken") Sample.ReadFile Sample.Unmarshal Sample.Marshal
         (Sample.world 1000) in
  r = Returned tt
  /\ World.Console w
     = ("Error loading transactions: unexpected end of JSON input" ++ nl)%string
  /\ World.OutputTxt w = None.
Proof. vm_compute. repeat split. Qed.

(** A device without room for the report: the writer returns its error and
    leaves the part that fitted. *)
Example run_out_of_room :
  let (r, w) :=
    main Sample.ReadDir Sample.ReadFile Sample.Unmarshal Sample.Marshal (Sample.world 70) in
  r = Returned tt
  /\ World.Console w
     = String.concat nl
         [ "Number of transactions in mempool: 2"; "Invalid transaction cc33";
           "Number of valid transactions: 1";
           "Error writing block to output file: write output.txt: no space left on device";
           "" ]%string
  /\ World.OutputTxt w
     = Some (list_byte_of_string
               ("5c9fc020cc679fe9814386abb9165601dc78a2ec4436dd13d6595533851a4a5d" ++ nl)
             ++ firstn 5 (list_byte_of_string
                            (Sample.render_Transaction CreateCoinbaseTransaction))).
Proof. vm_compute. repeat split. Qed.

(** ** The theorems at the samples *)

(** A transaction whose inputs add up to [2 ^ 63] against outputs of 0: the
    input total is the greater, and the validator, whose running total has
    wrapped to the least [int], refuses it. *)
Lemma ValidateTransaction_wrapping_total :
  ~ (ValidateTransaction Sample.tx_wrapping = true
     <-> input_total Sample.tx_wrapping > output_total Sample.tx_wrapping).
Proof.
  intros [_ H].
  assert (Hv : ValidateTransaction Sample.tx_wrapping = true)
    by (apply H; vm_compute; reflexivity).
  vm_compute in Hv. discriminate Hv.
Qed.

Lemma ValidateTransaction_iff_fee_positive_at_sample :
  is_int (input_total Sample.tx_paying)
  /\ is_int (output_total Sample.tx_paying)
  /\ (ValidateTransaction Sample.tx_paying = true
      <-> input_total Sample.tx_paying > output_total Sample.tx_paying)
  /\ (input_total Sample.tx_paying = output_total Sample.tx_paying ->
      ValidateTransaction Sample.tx_paying = false).
Proof.
  assert (Hin : is_int (input_total Sample.tx_paying))
    by (unfold is_int, MinInt, MaxInt; cbn; lia).
  assert (Hout : is_int (output_total Sample.tx_paying))
    by (unfold is_int, MinInt, MaxInt; cbn; lia).
  split; [exact Hin | split; [exact Hout |]].
  exact (ValidateTransaction_iff_fee_positive Sample.tx_paying Hin Hout).
Defined.

Lemma main_block_coinbase_first_at_sample :
  Forall (fun tx => ValidateTransaction tx = true) [Sample.tx_paying]
  /\ len (CreateCoinbaseTransaction :: [Sample.tx_paying]) <= MaxInt
  /\ Block.Transactions (main_block 1700000000 [Sample.tx_paying])
     = [CreateCoinbaseTransaction; Sample.tx_paying]
  /\ Block.TransactionCount (main_block 1700000000 [Sample.tx_paying]) = 2.
Proof.
  assert (Hacc : Forall (fun tx => ValidateTransaction tx = true) [Sample.tx_paying])
    by (repeat constructor).
  assert (Hlen : len (CreateCoinbaseTransaction :: [Sample.tx_paying]) <= MaxInt)
    by (unfold len, MaxInt; cbn; lia).
  split; [exact Hacc | split; [exact Hlen |]].
  destruct (main_block_coinbase_first 1700000000 [Sample.tx_paying] Hacc Hlen)
    as (Htxs & _ & Hcount).
  split; [exact Htxs | exact Hcount].
Defined.

Lemma main_block_Size_at_sample :
  140 + 8 + (56 + 56) <= MaxUint64
  /\ Block.Size (main_block 1700000000 [Sample.tx_paying]) = 140 + 8 + (56 + 56).
Proof.
  assert (Hfits : 140 + 8 + (56 + 56) <= MaxUint64) by (unfold MaxUint64; lia).
  split; [exact Hfits |].
  exact (main_block_Size 1700000000 [Sample.tx_paying] Hfits).
Defined.

Lemma WriteBlockToOutputFile_report_at_sample :
  let block := main_block 1700000000 [Sample.tx_paying] in
  let text := list_byte_of_string (Sample.render_Transaction CreateCoinbaseTransaction) in
  Block.Transactions block = CreateCoinbaseTransaction :: [Sample.tx_paying]
  /\ Forall has_input (Block.Transactions block)
  /\ Sample.Marshal CreateCoinbaseTransaction = inl text
  /\ World.CreateFault (Sample.world 1000) = None
  /\ (List.length (report block text) <= World.Room (Sample.world 1000))%nat
  /\ WriteBlockToOutputFile Sample.Marshal block Array32.zero (Sample.world 1000)
     = (Returned None, World.put (report block text) (World.truncate (Sample.world 1000)))
  /\ report block text
     = line (list_byte_of_string (digest_text (Block.Header block)))
         ++ line text ++ line (list_byte_of_string "aa11").
Proof.
  intros block text.
  assert (Htxs : Block.Transactions block = CreateCoinbaseTransaction :: [Sample.tx_paying])
    by reflexivity.
  assert (Hin : Forall has_input (Block.Transactions block))
    by (repeat constructor; discriminate).
  assert (Hjson : Sample.Marshal CreateCoinbaseTransaction = inl text) by reflexivity.
  assert (Hcreate : World.CreateFault (Sample.world 1000) = None) by reflexivity.
  assert (Hroom : (List.length (report block text) <= World.Room (Sample.world 1000))%nat)
    by (apply Nat.leb_le; vm_compute; reflexivity).
  repeat (split; [assumption |]).
  destruct (WriteBlockToOutputFile_report Sample.Marshal block Array32.zero
              (Sample.world 1000) CreateCoinbaseTransaction [Sample.tx_paying] text
              Htxs Hin Hjson Hcreate Hroom) as (Hrun & _ & Hreport & _).
  split; [exact Hrun |].
  rewrite Hreport. cbn [map List.concat]. rewrite app_nil_r. reflexivity.
Defined.

Lemma LoadTransactionsFromFolder_spec_at_sample :
  Sample.ReadDir "mempool" = inl Sample.files
  /\ Sample.ReadDir "broken" = inl Sample.files_broken
  /\ LoadTransactionsFromFolder Sample.ReadDir Sample.ReadFile Sample.Unmarshal "mempool"
     = ([Sample.tx_paying; Sample.tx_even], None)
  /\ LoadTransactionsFromFolder Sample.ReadDir Sample.ReadFile Sample.Unmarshal "broken"
     = ([], Some "unexpected end of JSON input"%string).
Proof.
  assert (Hdir : Sample.ReadDir "mempool" = inl Sample.files) by reflexivity.
  assert (Hbroken : Sample.ReadDir "broken" = inl Sample.files_broken) by reflexivity.
  split; [exact Hdir | split; [exact Hbroken | split]].
  - apply (proj1 (LoadTransactionsFromFolder_spec Sample.ReadDir Sample.ReadFile
                    Sample.Unmarshal "mempool" Sample.files Hdir)).
    repeat constructor; eexists; (split; reflexivity).
  - apply (proj2 (LoadTransactionsFromFolder_spec Sample.ReadDir Sample.ReadFile
                    Sample.Unmarshal "broken" Sample.files_broken Hbroken)
             [FileInfo.mk "a.json" false; FileInfo.mk "b.json" false]
             [Sample.tx_paying; Sample.tx_even]
             (FileInfo.mk "c.json" false) []).
    + reflexivity.
    + repeat constructor; eexists; (split; reflexivity).
    + eexists _, _. split; reflexivity.
Defined.

Lemma first_input_indexing_at_sample :
  Forall has_input [Sample.tx_paying; Sample.tx_even]
  /\ fst (LoadTransactionsFromFolder Sample.ReadDir Sample.ReadFile Sample.Unmarshal
            MempoolPath)
     = [Sample.tx_paying; Sample.tx_even]
  /\ (exists w',
        main Sample.ReadDir Sample.ReadFile Sample.Unmarshal Sample.Marshal
             (Sample.world 1000)
        = (Returned tt, w')).
Proof.
  assert (Hin : Forall has_input [Sample.tx_paying; Sample.tx_even])
    by (repeat constructor; discriminate).
  assert (Hload : fst (LoadTransactionsFromFolder Sample.ReadDir Sample.ReadFile
                         Sample.Unmarshal MempoolPath)
                  = [Sample.tx_paying; Sample.tx_even]) by reflexivity.
  split; [exact Hin | split; [exact Hload |]].
  destruct (first_input_indexing Sample.ReadDir Sample.ReadFile Sample.Unmarshal
              Sample.Marshal) as (Hsafe & _).
  destruct (Hsafe _ Hin) as (_ & _ & Hmain).
  exact (Hmain Hload (Sample.world 1000)).
Defined.

Lemma WriteBlockToOutputFile_ignores_hash_at_sample :
  let block := main_block 1700000000 [Sample.tx_paying] in
  World.CreateFault (Sample.world 1000) = None
  /\ (65 <= World.Room (Sample.world 1000))%nat
  /\ WriteBlockToOutputFile Sample.Marshal block Array32.zero (Sample.world 1000)
     = WriteBlockToOutputFile Sample.Marshal block (HashBlockHeader []) (Sample.world 1000)
  /\ begins_with
       (line (list_byte_of_string
                "5c9fc020cc679fe9814386abb9165601dc78a2ec4436dd13d6595533851a4a5d"))
       (snd (WriteBlockToOutputFile Sample.Marshal block Array32.zero (Sample.world 1000))).
Proof.
  intros block.
  assert (Hcreate : World.CreateFault (Sample.world 1000) = None) by reflexivity.
  assert (Hroom : (65 <= World.Room (Sample.world 1000))%nat) by (cbn; lia).
  split; [exact Hcreate | split; [exact Hroom |]].
  destruct (WriteBlockToOutputFile_ignores_hash Sample.Marshal block Array32.zero
              (HashBlockHeader []) (Sample.world 1000)) as (Hsame & Hline).
  split; [exact Hsame |].
  exact (Hline Hcreate Hroom).
Defined.

(** ** The further properties at the samples *)

Lemma ValidateTransaction_order_at_sample :
  Permutation (Transaction.Vin Sample.tx_paying) (Transaction.Vin Sample2.tx_shuffled)
  /\ Permutation (Transaction.Vout Sample.tx_paying) (Transaction.Vout Sample2.tx_shuffled)
  /\ ValidateTransaction Sample.tx_paying = ValidateTransaction Sample2.tx_shuffled.
Proof.
  assert (Hin : Permutation (Transaction.Vin Sample.tx_paying)
                            (Transaction.Vin Sample2.tx_shuffled))
    by apply perm_swap.
  assert (Hout : Permutation (Transaction.Vout Sample.tx_paying)
                             (Transaction.Vout Sample2.tx_shuffled))
    by apply Permutation_refl.
  split; [exact Hin | split; [exact Hout |]].
  exact (ValidateTransaction_order _ _ Hin Hout).
Defined.

Lemma ValidateTransaction_no_input_at_sample :
  Transaction.Vin Sample.tx_no_input_negative = []
  /\ is_int (output_total Sample.tx_no_input_negative)
  /\ (ValidateTransaction Sample.tx_no_input_negative = true
      <-> output_total Sample.tx_no_input_negative < 0).
Proof.
  assert (Hout : is_int (output_total Sample.tx_no_input_negative))
    by (unfold is_int, MinInt, MaxInt; cbn; lia).
  split; [reflexivity | split; [exact Hout |]].
  exact (ValidateTransaction_no_input Sample.tx_no_input_negative eq_refl Hout).
Defined.

Lemma ValidateTransaction_exact_within_at_sample :
  Forall (fun vin => 0 <= Prevout.Value (TxInput.PrevOut vin) <= 2100000000000000)
         (Transaction.Vin Sample.tx_paying)
  /\ Forall (fun vout => 0 <= TxOutput.Value vout <= 2100000000000000)
            (Transaction.Vout Sample.tx_paying)
  /\ 2100000000000000 * len (Transaction.Vin Sample.tx_paying) <= MaxInt
  /\ 2100000000000000 * len (Transaction.Vout Sample.tx_paying) <= MaxInt
  /\ (ValidateTransaction Sample.tx_paying = true
      <-> input_total Sample.tx_paying > output_total Sample.tx_paying).
Proof.
  assert (Hin : Forall (fun vin => 0 <= Prevout.Value (TxInput.PrevOut vin)
                                   <= 2100000000000000)
                       (Transaction.Vin Sample.tx_paying))
    by (repeat constructor; cbn; lia).
  assert (Hout : Forall (fun vout => 0 <= TxOutput.Value vout <= 2100000000000000)
                        (Transaction.Vout Sample.tx_paying))
    by (repeat constructor; cbn; lia).
  assert (Hnin : 2100000000000000 * len (Transaction.Vin Sample.tx_paying) <= MaxInt)
    by (unfold len, MaxInt; cbn; lia).
  assert (Hnout : 2100000000000000 * len (Transaction.Vout Sample.tx_paying) <= MaxInt)
    by (unfold len, MaxInt; cbn; lia).
  repeat (split; [assumption |]).
  exact (ValidateTransaction_exact_within _ _ Hin Hout Hnin Hnout).
Defined.

Lemma SerializeBlockHeader_injective_at_sample :
  let header := Block.Header (main_block 1700000000 []) in
  let header' :=
    BlockHeader.mk 1 Array32.zero Array32.zero 1700000000
      "0000ffff00000000000000000000000000000000000000000000000000000000" 0 in
  header_fits header
  /\ header_fits header'
  /\ SerializeBlockHeader header = SerializeBlockHeader header'
  /\ header = header'.
Proof.
  intros header header'.
  assert (Hfits : header_fits header)
    by (unfold header_fits, is_uint32; cbn; lia).
  assert (Hfits' : header_fits header')
    by (unfold header_fits, is_uint32; cbn; lia).
  assert (Heq : SerializeBlockHeader header = SerializeBlockHeader header')
    by reflexivity.
  split; [exact Hfits | split; [exact Hfits' | split; [exact Heq |]]].
  exact (SerializeBlockHeader_injective header header' Hfits Hfits' Heq).
Defined.

Lemma LoadTransactionsFromFolder_unreadable_at_sample :
  Sample.ReadDir "mempool" = inl Sample.files
  /\ filter is_record Sample.files
     = [FileInfo.mk "a.json" false] ++ FileInfo.mk "b.json" false :: []
  /\ Sample2.ReadFile_denied "mempool/b.json"
     = inr "open mempool/b.json: permission denied"%string
  /\ LoadTransactionsFromFolder Sample.ReadDir Sample2.ReadFile_denied Sample.Unmarshal
       "mempool"
     = ([], Some "open mempool/b.json: permission denied"%string).
Proof.
  assert (Hdir : Sample.ReadDir "mempool" = inl Sample.files) by reflexivity.
  assert (Hsplit : filter is_record Sample.files
                   = [FileInfo.mk "a.json" false] ++ FileInfo.mk "b.json" false :: [])
    by reflexivity.
  assert (Hbad : Sample2.ReadFile_denied "mempool/b.json"
                 = inr "open mempool/b.json: permission denied"%string) by reflexivity.
  split; [exact Hdir | split; [exact Hsplit | split; [exact Hbad |]]].
  apply (LoadTransactionsFromFolder_unreadable Sample.ReadDir Sample2.ReadFile_denied
           Sample.Unmarshal "mempool" Sample.files [FileInfo.mk "a.json" false]
           [Sample.tx_paying] (FileInfo.mk "b.json" false) [] _ Hdir Hsplit).
  - repeat constructor. eexists. split; reflexivity.
  - exact Hbad.
Defined.

Lemma LoadTransactionsFromFolder_inversion_at_sample :
  LoadTransactionsFromFolder Sample.ReadDir Sample.ReadFile Sample.Unmarshal "mempool"
  = ([Sample.tx_paying; Sample.tx_even], None)
  /\ exists files,
       Sample.ReadDir "mempool" = inl files
       /\ Forall2 (decodes Sample.ReadFile Sample.Unmarshal "mempool")
                  (filter is_record files) [Sample.tx_paying; Sample.tx_even].
Proof.
  assert (Hload : LoadTransactionsFromFolder Sample.ReadDir Sample.ReadFile
                    Sample.Unmarshal "mempool"
                  = ([Sample.tx_paying; Sample.tx_even], None)) by reflexivity.
  split; [exact Hload |].
  exact (LoadTransactionsFromFolder_inversion Sample.ReadDir Sample.ReadFile
           Sample.Unmarshal "mempool" _ None Hload).
Defined.

Lemma LoadTransactionsFromFolder_records_only_at_sample :
  Sample.ReadDir "mempool" = inl Sample.files
  /\ filter is_record Sample.files = filter is_record Sample2.files_plain
  /\ LoadTransactionsFromFolder Sample.ReadDir Sample.ReadFile Sample.Unmarshal "mempool"
     = LoadTransactionsFromFolder (fun _ => inl Sample2.files_plain) Sample.ReadFile
         Sample.Unmarshal "mempool".
Proof.
  assert (Hdir : Sample.ReadDir "mempool" = inl Sample.files) by reflexivity.
  assert (Hrec : filter is_record Sample.files = filter is_record Sample2.files_plain)
    by reflexivity.
  split; [exact Hdir | split; [exact Hrec |]].
  exact (LoadTransactionsFromFolder_records_only Sample.ReadDir
           (fun _ => inl Sample2.files_plain) Sample.ReadFile Sample.Unmarshal
           "mempool" Sample.files Sample2.files_plain Hdir eq_refl Hrec).
Defined.

Lemma main_validate_effect_at_sample :
  Forall has_input (refused [Sample.tx_paying; Sample.tx_even])
  /\ main_validate [Sample.tx_paying; Sample.tx_even] [] (Sample.world 1000)
     = (Returned [Sample.tx_paying],
        World.print ("Invalid transaction cc33" ++ nl) (Sample.world 1000)).
Proof.
  assert (Hin : Forall has_input (refused [Sample.tx_paying; Sample.tx_even]))
    by (repeat constructor; discriminate).
  split; [exact Hin |].
  exact (proj1 (main_validate_effect [Sample.tx_paying; Sample.tx_even] Hin []
                  (Sample.world 1000))).
Defined.

Lemma main_validate_panics_iff_at_sample :
  Exists (fun tx => Transaction.Vin tx = []) (refused [Sample.tx_paying; Sample.tx_no_input])
  /\ exists w',
       main_validate [Sample.tx_paying; Sample.tx_no_input] [] (Sample.world 1000)
       = (Panicked out_of_range, w').
Proof.
  assert (HE : Exists (fun tx => Transaction.Vin tx = [])
                 (refused [Sample.tx_paying; Sample.tx_no_input]))
    by (apply Exists_cons_hd; reflexivity).
  split; [exact HE |].
  exact (proj2 (main_validate_panics_iff [Sample.tx_paying; Sample.tx_no_input] []
                  (Sample.world 1000)) HE).
Defined.

Lemma WriteBlockToOutputFile_nil_complete_at_sample :
  let block := main_block 1700000000 [Sample.tx_paying] in
  let text := list_byte_of_string (Sample.render_Transaction CreateCoinbaseTransaction) in
  let w' := World.put (report block text) (World.truncate (Sample.world 1000)) in
  WriteBlockToOutputFile Sample.Marshal block Array32.zero (Sample.world 1000)
  = (Returned None, w')
  /\ exists coinbase rest text',
       Block.Transactions block = coinbase :: rest
       /\ Sample.Marshal coinbase = inl text'
       /\ Forall has_input rest
       /\ World.CreateFault (Sample.world 1000) = None
       /\ w' = World.put (report block text') (World.truncate (Sample.world 1000))
       /\ World.OutputTxt w' = Some (report block text').
Proof.
  intros block text w'.
  assert (Hrun : WriteBlockToOutputFile Sample.Marshal block Array32.zero
                   (Sample.world 1000)
                 = (Returned None, w')) by (vm_compute; reflexivity).
  split; [exact Hrun |].
  exact (WriteBlockToOutputFile_nil_complete Sample.Marshal block Array32.zero
           (Sample.world 1000) w' Hrun).
Defined.

Lemma WriteBlockToOutputFile_partial_at_sample :
  let block := main_block 1700000000 [Sample.tx_paying] in
  let text := list_byte_of_string (Sample.render_Transaction CreateCoinbaseTransaction) in
  Block.Transactions block = CreateCoinbaseTransaction :: [Sample.tx_paying]
  /\ Sample.Marshal CreateCoinbaseTransaction = inl text
  /\ World.CreateFault (Sample.world 70) = None
  /\ exists written missing,
       World.OutputTxt
         (snd (WriteBlockToOutputFile Sample.Marshal block Array32.zero (Sample.world 70)))
       = Some written
       /\ written ++ missing = report block text.
Proof.
  intros block text.
  assert (Htxs : Block.Transactions block = CreateCoinbaseTransaction :: [Sample.tx_paying])
    by reflexivity.
  assert (Hjson : Sample.Marshal CreateCoinbaseTransaction = inl text) by reflexivity.
  assert (Hcreate : World.CreateFault (Sample.world 70) = None) by reflexivity.
  split; [exact Htxs | split; [exact Hjson | split; [exact Hcreate |]]].
  exact (WriteBlockToOutputFile_partial Sample.Marshal block Array32.zero (Sample.world 70)
           CreateCoinbaseTransaction [Sample.tx_paying] text Htxs Hjson Hcreate).
Defined.

Lemma WriteBlockToOutputFile_panics_at_at_sample :
  let block := main_block 1700000000 [Sample.tx_paying; Sample.tx_no_input_negative] in
  let text := list_byte_of_string (Sample.render_Transaction CreateCoinbaseTransaction) in
  let written :=
    line (list_byte_of_string (digest_text (Block.Header block)))
      ++ line text ++ List.concat (map line (map first_txid [Sample.tx_paying])) in
  Block.Transactions block
  = CreateCoinbaseTransaction :: [Sample.tx_paying] ++ Sample.tx_no_input_negative :: []
  /\ Forall has_input [Sample.tx_paying]
  /\ Transaction.Vin Sample.tx_no_input_negative = []
  /\ Sample.Marshal CreateCoinbaseTransaction = inl text
  /\ World.CreateFault (Sample.world 1000) = None
  /\ (List.length written <= World.Room (Sample.world 1000))%nat
  /\ WriteBlockToOutputFile Sample.Marshal block Array32.zero (Sample.world 1000)
     = (Panicked out_of_range, World.put written (World.truncate (Sample.world 1000))).
Proof.
  intros block text written.
  assert (Htxs : Block.Transactions block
                 = CreateCoinbaseTransaction
                     :: [Sample.tx_paying] ++ Sample.tx_no_input_negative :: [])
    by reflexivity.
  assert (Hin : Forall has_input [Sample.tx_paying]) by (repeat constructor; discriminate).
  assert (Hvin : Transaction.Vin Sample.tx_no_input_negative = []) by reflexivity.
  assert (Hjson : Sample.Marshal CreateCoinbaseTransaction = inl text) by reflexivity.
  assert (Hcreate : World.CreateFault (Sample.world 1000) = None) by reflexivity.
  assert (Hroom : (List.length written <= World.Room (Sample.world 1000))%nat)
    by (apply Nat.leb_le; vm_compute; reflexivity).
  repeat (split; [assumption |]).
  exact (WriteBlockToOutputFile_panics_at Sample.Marshal block Array32.zero
           (Sample.world 1000) CreateCoinbaseTransaction [Sample.tx_paying]
           Sample.tx_no_input_negative [] text Htxs Hin Hvin Hjson Hcreate Hroom).
Defined.

Lemma main_report_at_sample :
  let transactions := [Sample.tx_paying; Sample.tx_even] in
  let text := list_byte_of_string (Sample.render_Transaction CreateCoinbaseTransaction) in
  LoadTransactionsFromFolder Sample.ReadDir Sample.ReadFile Sample.Unmarshal MempoolPath
  = (transactions, None)
  /\ Forall has_input transactions
  /\ Sample.Marshal CreateCoinbaseTransaction = inl text
  /\ World.CreateFault (Sample.world 1000) = None
  /\ (List.length
        (report (main_block (World.Clock (Sample.world 1000))
                   (filter ValidateTransaction transactions)) text)
      <= World.Room (Sample.world 1000))%nat
  /\ exists w',
       main Sample.ReadDir Sample.ReadFile Sample.Unmarshal Sample.Marshal
            (Sample.world 1000)
       = (Returned tt, w')
       /\ World.OutputTxt w'
          = Some (line (list_byte_of_string
                          "5c9fc020cc679fe9814386abb9165601dc78a2ec4436dd13d6595533851a4a5d")
                    ++ line text ++ line (list_byte_of_string "aa11")).
Proof.
  intros transactions text.
  assert (Hload : LoadTransactionsFromFolder Sample.ReadDir Sample.ReadFile
                    Sample.Unmarshal MempoolPath
                  = (transactions, None)) by reflexivity.
  assert (Hin : Forall has_input transactions) by (repeat constructor; discriminate).
  assert (Hjson : Sample.Marshal CreateCoinbaseTransaction = inl text) by reflexivity.
  assert (Hcreate : World.CreateFault (Sample.world 1000) = None) by reflexivity.
  assert (Hroom : (List.length
                     (report (main_block (World.Clock (Sample.world 1000))
                                (filter ValidateTransaction transactions)) text)
                   <= World.Room (Sample.world 1000))%nat)
    by (apply Nat.leb_le; vm_compute; reflexivity).
  repeat (split; [assumption |]).
  destruct (main_report Sample.ReadDir Sample.ReadFile Sample.Unmarshal Sample.Marshal
              (Sample.world 1000) transactions text Hload Hin Hjson Hcreate Hroom)
    as (w' & Hrun & Hfile & _).
  exists w'. split; [exact Hrun |].
  rewrite Hfile. vm_compute. reflexivity.
Defined.

Lemma main_bad_record_at_sample :
  let ReadDir := fun _ : string => Sample.ReadDir "broken" in
  let good := [FileInfo.mk "a.json" false; FileInfo.mk "b.json" false] in
  let bad := FileInfo.mk "c.json" false in
  ReadDir MempoolPath = inl Sample.files_broken
  /\ filter is_record Sample.files_broken = good ++ bad :: []
  /\ Forall2 (decodes Sample.ReadFile Sample.Unmarshal MempoolPath) good
             [Sample.tx_paying; Sample.tx_even]
  /\ malformed Sample.ReadFile Sample.Unmarshal MempoolPath bad
               "unexpected end of JSON input"%string
  /\ World.OutputTxt
       (snd (main ReadDir Sample.ReadFile Sample.Unmarshal Sample.Marshal
                  (Sample.world 1000)))
     = None.
Proof.
  intros ReadDir good bad.
  assert (Hdir : ReadDir MempoolPath = inl Sample.files_broken) by reflexivity.
  assert (Hsplit : filter is_record Sample.files_broken = good ++ bad :: [])
    by reflexivity.
  assert (Hgood : Forall2 (decodes Sample.ReadFile Sample.Unmarshal MempoolPath) good
                          [Sample.tx_paying; Sample.tx_even])
    by (repeat constructor; eexists; (split; reflexivity)).
  assert (Hbad : malformed Sample.ReadFile Sample.Unmarshal MempoolPath bad
                           "unexpected end of JSON input"%string)
    by (eexists _, _; split; reflexivity).
  repeat (split; [assumption |]).
  exact (proj2 (main_bad_record ReadDir Sample.ReadFile Sample.Unmarshal Sample.Marshal
                  (Sample.world 1000) Sample.files_broken good
                  [Sample.tx_paying; Sample.tx_even] bad []
                  "unexpected end of JSON input"%string
                  Hdir Hsplit Hgood (or_intror Hbad))).
Defined.

Lemma main_cannot_create_at_sample :
  let transactions := [Sample.tx_paying; Sample.tx_even] in
  LoadTransactionsFromFolder Sample.ReadDir Sample.ReadFile Sample.Unmarshal MempoolPath
  = (transactions, None)
  /\ Forall has_input (refused transactions)
  /\ World.CreateFault Sample2.world_read_only
     = Some "open output.txt: read-only file system"%string
  /\ exists w',
       main Sample.ReadDir Sample.ReadFile Sample.Unmarshal Sample.Marshal
            Sample2.world_read_only
       = (Returned tt, w')
       /\ World.OutputTxt w' = None.
Proof.
  intros transactions.
  assert (Hload : LoadTransactionsFromFolder Sample.ReadDir Sample.ReadFile
                    Sample.Unmarshal MempoolPath
                  = (transactions, None)) by reflexivity.
  assert (Hin : Forall has_input (refused transactions))
    by (repeat constructor; discriminate).
  assert (Hcreate : World.CreateFault Sample2.world_read_only
                    = Some "open output.txt: read-only file system"%string)
    by reflexivity.
  repeat (split; [assumption |]).
  destruct (main_cannot_create Sample.ReadDir Sample.ReadFile Sample.Unmarshal
              Sample.Marshal Sample2.world_read_only transactions _ Hload Hin Hcreate)
    as (w' & Hrun & Hfile & _).
  exists w'. split; [exact Hrun | exact Hfile].
Defined.

Lemma main_panics_before_file_at_sample :
  LoadTransactionsFromFolder Sample.ReadDir Sample.ReadFile Sample2.Unmarshal_no_input
    MempoolPath
  = ([Sample.tx_no_input; Sample.tx_no_input], None)
  /\ Exists (fun tx => Transaction.Vin tx = [])
            (refused [Sample.tx_no_input; Sample.tx_no_input])
  /\ exists w',
       main Sample.ReadDir Sample.ReadFile Sample2.Unmarshal_no_input Sample.Marshal
            (Sample.world 1000)
       = (Panicked out_of_range, w')
       /\ World.OutputTxt w' = None.
Proof.
  assert (Hload : LoadTransactionsFromFolder Sample.ReadDir Sample.ReadFile
                    Sample2.Unmarshal_no_input MempoolPath
                  = ([Sample.tx_no_input; Sample.tx_no_input], None)) by reflexivity.
  assert (HE : Exists (fun tx => Transaction.Vin tx = [])
                 (refused [Sample.tx_no_input; Sample.tx_no_input]))
    by (apply Exists_cons_hd; reflexivity).
  split; [exact Hload | split; [exact HE |]].
  destruct (main_panics_before_file Sample.ReadDir Sample.ReadFile
              Sample2.Unmarshal_no_input Sample.Marshal (Sample.world 1000) _ Hload HE)
    as (w' & Hrun & Hfile & _).
  exists w'. split; [exact Hrun | exact Hfile].
Defined.

Lemma Main2_WriteBlockToOutputFile_layout_at_sample :
  let block := Main2_main_block 1700000000 [Sample.tx_paying] in
  Forall has_input (Block.Transactions block)
  /\ World.CreateFault (Sample.world 1000) = None
  /\ (List.length (Main2_report block) <= World.Room (Sample.world 1000))%nat
  /\ Main2_WriteBlockToOutputFile block (Sample.world 1000)
     = (Returned None, World.put (Main2_report block) (World.truncate (Sample.world 1000)))
  /\ le_value (firstn 8 (Main2_report block)) = 260.
Proof.
  intros block.
  assert (Hin : Forall has_input (Block.Transactions block))
    by (repeat constructor; discriminate).
  assert (Hcreate : World.CreateFault (Sample.world 1000) = None) by reflexivity.
  assert (Hroom : (List.length (Main2_report block) <= World.Room (Sample.world 1000))%nat)
    by (apply Nat.leb_le; vm_compute; reflexivity).
  repeat (split; [assumption |]).
  destruct (Main2_WriteBlockToOutputFile_layout block (Sample.world 1000)
              Hin Hcreate Hroom) as (Hrun & _ & Hsize & _).
  split; [exact Hrun | exact Hsize].
Defined.

Lemma Main2_main_report_at_sample :
  let transactions := [Sample.tx_paying; Sample.tx_even] in
  LoadTransactionsFromFolder Sample.ReadDir Sample.ReadFile Sample.Unmarshal MempoolPath
  = (transactions, None)
  /\ Forall has_input transactions
  /\ World.CreateFault (Sample.world 1000) = None
  /\ 204 + 56 * len (filter ValidateTransaction transactions) <= MaxUint64
  /\ (List.length
        (Main2_report
           (Main2_main_block (World.Clock (Sample.world 1000))
              (filter ValidateTransaction transactions)))
      <= World.Room (Sample.world 1000))%nat
  /\ exists w',
       Main2_main Sample.ReadDir Sample.ReadFile Sample.Unmarshal (Sample.world 1000)
       = (Returned tt, w').
Proof.
  intros transactions.
  assert (Hload : LoadTransactionsFromFolder Sample.ReadDir Sample.ReadFile
                    Sample.Unmarshal MempoolPath
                  = (transactions, None)) by reflexivity.
  assert (Hin : Forall has_input transactions) by (repeat constructor; discriminate).
  assert (Hcreate : World.CreateFault (Sample.world 1000) = None) by reflexivity.
  assert (Hsize : 204 + 56 * len (filter ValidateTransaction transactions) <= MaxUint64)
    by (vm_compute; discriminate).
  assert (Hroom : (List.length
                     (Main2_report
                        (Main2_main_block (World.Clock (Sample.world 1000))
                           (filter ValidateTransaction transactions)))
                   <= World.Room (Sample.world 1000))%nat)
    by (apply Nat.leb_le; vm_compute; reflexivity).
  repeat (split; [assumption |]).
  destruct (Main2_main_report Sample.ReadDir Sample.ReadFile Sample.Unmarshal
              (Sample.world 1000) transactions Hload Hin Hcreate Hsize Hroom)
    as (w' & Hrun & _).
  exists w'. exact Hrun.
Defined.
